(** * uniapp-frontend skill: the code of its templates, embedded and checked

    The repository ships one Vue single-file component
    ([assets/page-template.vue]) and reference guides whose code blocks are
    meant to be copied into a uni-app project ([SKILL.md],
    [references/page-patterns.md], [references/theme-guide.md],
    [references/ui-libraries.md]).  This file embeds the script parts of those
    templates (async page functions, the computed list filter, the status
    lookups, the Pinia theme stores) and the declarative parts the skill
    fixes (the [Item] interface, the page-registration JSON, the SCSS design
    tokens), and proves what they do.

    Conventions of the embedding:
    - a JavaScript [number] is an integer, [NaN] or an infinity (finite
      non-integers are not represented);
    - a JavaScript object used as a dictionary is a [gmap] of its own
      properties; where the code reads a property under a name that comes
      from outside (the theme stores), the members the object inherits from
      [Object.prototype] are part of the model ([Prototype]);
    - an [async] function is a tree of its effects ([prog]): writes to the
      page's refs, calls into the uni-app runtime and [await] points, each
      [await] continuing with the outcome of the awaited promise. *)

From Stdlib Require Import ZArith String Ascii List Bool Lia.
From stdpp Require Import base decidable option list gmap strings pretty.

Local Open Scope string_scope.
Local Open Scope Z_scope.

(** ** JavaScript values used by the templates *)

Module JS.

Inductive number : Type :=
| Int (z : Z)
| NaN
| Infinity (negative : bool).

#[warnings="-register-all"] Inductive value : Type :=
| VUndefined
| VNull
| VBool (b : bool)
| VNum (n : number)
| VStr (s : string)
| VError (message : string)   (* an instance of [Error] *)
| VArray (elems : list value).

(** An object literal / record: its own properties. *)
Abbreviation object := (gmap string value).

(** [x > 0] *)
Definition gt_zero (x : number) : bool :=
  match x with
  | Int z => 0 <? z
  | NaN => false
  | Infinity negative => negb negative
  end.

(** [x - 1] *)
Definition minus_one (x : number) : number :=
  match x with
  | Int z => Int (z - 1)
  | NaN => NaN
  | Infinity negative => Infinity negative
  end.

(** [x === y] on numbers: [NaN] is equal to nothing. *)
Definition strict_eq (x y : number) : bool :=
  match x, y with
  | Int a, Int b => a =? b
  | Infinity a, Infinity b => Bool.eqb a b
  | _, _ => false
  end.

(** Number to string, as used for property keys ([map[status]]) and in
    template literals.  Integers print in decimal (JavaScript turns to the
    exponent form from 1e21 on; in either form only 0 prints as "0" and
    only 1 as "1"). *)
Definition number_to_string (x : number) : string :=
  match x with
  | Int z => pretty z
  | NaN => "NaN"
  | Infinity false => "Infinity"
  | Infinity true => "-Infinity"
  end.

(** Truthiness of a string, as in [if (searchText.value)]. *)
Definition truthy_string (s : string) : bool :=
  match s with
  | EmptyString => false
  | String _ _ => true
  end.

(** ToBoolean. *)
Definition truthy (v : value) : bool :=
  match v with
  | VUndefined | VNull => false
  | VBool b => b
  | VNum (Int z) => negb (z =? 0)
  | VNum NaN => false
  | VNum (Infinity _) => true
  | VStr s => truthy_string s
  | VError _ | VArray _ => true
  end.

(** String conversion in a template literal ([`...${v}`]). *)
Fixpoint to_string (v : value) : string :=
  match v with
  | VUndefined => "undefined"
  | VNull => "null"
  | VBool true => "true"
  | VBool false => "false"
  | VNum n => number_to_string n
  | VStr s => s
  | VError message => "Error: " +:+ message
  | VArray elems =>
      String.concat ","
        (map (fun e => match e with
                       | VUndefined | VNull => EmptyString
                       | _ => to_string e
                       end) elems)
  end.

(** [o[k] || fallback] for a dictionary of strings: the fallback is taken
    when the property is missing, and also when it is the empty string. *)
Definition or_else (found : option string) (fallback : string) : string :=
  match found with
  | Some s => if truthy_string s then s else fallback
  | None => fallback
  end.

(** [s.includes(t)]: [t] occurs in [s] as a contiguous run. *)
Fixpoint includes (s t : string) : bool :=
  String.prefix t s ||
  match s with
  | EmptyString => false
  | String _ s' => includes s' t
  end.

(** [toLowerCase] restricted to the ASCII letters; the run-time's function
    also maps non-ASCII letters, which is why the list page below takes it
    as a parameter. *)
Definition ascii_lower (c : ascii) : ascii :=
  let n := nat_of_ascii c in
  if ((65 <=? n) && (n <=? 90))%nat then ascii_of_nat (n + 32) else c.

Fixpoint ascii_toLowerCase (s : string) : string :=
  match s with
  | EmptyString => EmptyString
  | String c s' => String (ascii_lower c) (ascii_toLowerCase s')
  end.

End JS.

(** ** Async functions as effect trees *)

Module Async.
Import JS.

(** The promises the templates await. *)
Inductive promise : Type :=
| Delay (ms : Z)        (* [new Promise(resolve => setTimeout(resolve, ms))] *)
| ApiGetItems           (* [api.getItems()] *)
| FormValidate.         (* [formRef.value.validate()] *)

Inductive outcome : Type :=
| Fulfilled (v : value)
| Rejected (reason : value).

(** What a promise can settle to.  The executor of [Delay] only ever calls
    [resolve], with no argument; the other two are calls into code outside
    the templates and may settle either way. *)
Definition settles (p : promise) (o : outcome) : bool :=
  match p, o with
  | Delay _, Fulfilled VUndefined => true
  | Delay _, _ => false
  | (ApiGetItems | FormValidate), _ => true
  end.

(** Calls into the uni-app runtime and the console. *)
Inductive api_call : Type :=
| ShowToast (title : option string) (icon : string)
| NavigateTo (url : string)
| NavigateBackAfter (ms : Z)   (* [setTimeout(() => uni.navigateBack(), ms)] *)
| ConsoleLog (label : string) (v : value)
| ConsoleError (v : value).

(** [W] are the writes to the page's refs, [S] the refs, [A] the result. *)
Inductive prog (W S A : Type) : Type :=
| Ret (a : A)
| ReturnStmt                                   (* [return;] *)
| Throw (e : value)
| Write (w : W) (k : prog W S A)
| Read (k : S -> prog W S A)
| Call (c : api_call) (k : prog W S A)
| Await (p : promise) (k : outcome -> prog W S A).

Arguments Ret {W S A} a.
Arguments ReturnStmt {W S A}.
Arguments Throw {W S A} e.
Arguments Write {W S A} w k.
Arguments Read {W S A} k.
Arguments Call {W S A} c k.
Arguments Await {W S A} p k.

Fixpoint bind {W S A B} (m : prog W S A) (f : A -> prog W S B) : prog W S B :=
  match m with
  | Ret a => f a
  | ReturnStmt => ReturnStmt
  | Throw e => Throw e
  | Write w k => Write w (bind k f)
  | Read k => Read (fun s => bind (k s) f)
  | Call c k => Call c (bind k f)
  | Await p k => Await p (fun o => bind (k o) f)
  end.

#[global] Instance prog_ret {W S} : MRet (prog W S) := fun _ a => Ret a.
#[global] Instance prog_bind {W S} : MBind (prog W S) := fun _ _ f m => bind m f.

Definition write {W S} (w : W) : prog W S unit := Write w (Ret tt).
Definition read {W S} : prog W S S := Read Ret.
Definition call {W S} (c : api_call) : prog W S unit := Call c (Ret tt).

(** [await p]: the value of a fulfilled promise, a throw for a rejected one. *)
Definition await {W S} (p : promise) : prog W S value :=
  Await p (fun o =>
    match o with
    | Fulfilled v => Ret v
    | Rejected reason => Throw reason
    end).

(** [try { body } catch (e) { handler e }] *)
Fixpoint try_catch {W S A} (body : prog W S A) (handler : value -> prog W S A)
  : prog W S A :=
  match body with
  | Ret a => Ret a
  | ReturnStmt => ReturnStmt
  | Throw e => handler e
  | Write w k => Write w (try_catch k handler)
  | Read k => Read (fun s => try_catch (k s) handler)
  | Call c k => Call c (try_catch k handler)
  | Await p k => Await p (fun o => try_catch (k o) handler)
  end.

(** [try { body } finally { cleanup }]: the cleanup runs after every
    completion of the body, and the body's completion is kept unless the
    cleanup itself throws or returns. *)
Fixpoint try_finally {W S A} (body : prog W S A) (cleanup : prog W S unit)
  : prog W S A :=
  match body with
  | Ret a => bind cleanup (fun _ => Ret a)
  | ReturnStmt => bind cleanup (fun _ => ReturnStmt)
  | Throw e => bind cleanup (fun _ => Throw e)
  | Write w k => Write w (try_finally k cleanup)
  | Read k => Read (fun s => try_finally (k s) cleanup)
  | Call c k => Call c (try_finally k cleanup)
  | Await p k => Await p (fun o => try_finally (k o) cleanup)
  end.

Definition try_catch_finally {W S A} (body : prog W S A)
    (handler : value -> prog W S A) (cleanup : prog W S unit) : prog W S A :=
  try_finally (try_catch body handler) cleanup.

(** How a write changes the refs. *)
Class Store (W S : Type) := apply_write : W -> S -> S.

Inductive event (W : Type) : Type :=
| Wrote (w : W)
| Called (c : api_call)
| Awaited (p : promise) (o : outcome).

Arguments Wrote {W} w.
Arguments Called {W} c.
Arguments Awaited {W} p o.

Inductive completion (A : Type) : Type :=
| Normal (a : A)
| Returned
| Thrown (e : value).

Arguments Normal {A} a.
Arguments Returned {A}.
Arguments Thrown {A} e.

Record result (W S A : Type) : Type := Result {
  how : completion A;
  refs : S;
  trace : list (event W);
}.

Arguments Result {W S A} how refs trace.
Arguments how {W S A} r.
Arguments refs {W S A} r.
Arguments trace {W S A} r.

Definition after {W S A} (e : event W) (r : result W S A) : result W S A :=
  Result (how r) (refs r) (e :: trace r).

(** Run a function to completion; [oracle] tells how each awaited promise
    settles.  The trace lists the effects in the order they happen. *)
Fixpoint run {W S A} `{Store W S} (oracle : promise -> outcome)
    (m : prog W S A) (s : S) : result W S A :=
  match m with
  | Ret a => Result (Normal a) s []
  | ReturnStmt => Result Returned s []
  | Throw e => Result (Thrown e) s []
  | Write w k => after (Wrote w) (run oracle k (apply_write w s))
  | Read k => run oracle (k s) s
  | Call c k => after (Called c) (run oracle k s)
  | Await p k => after (Awaited p (oracle p)) (run oracle (k (oracle p)) s)
  end.

(** Run a function up to its first [await]: this is what a call without
    [await] in front of it does before it hands back the promise. *)
Inductive suspension (W S A : Type) : Type :=
| Finished (c : completion A)
| Suspended (p : promise) (k : outcome -> prog W S A).

Arguments Finished {W S A} c.
Arguments Suspended {W S A} p k.

Fixpoint start {W S A} `{Store W S} (m : prog W S A) (s : S)
  : suspension W S A * S * list api_call :=
  match m with
  | Ret a => (Finished (Normal a), s, [])
  | ReturnStmt => (Finished Returned, s, [])
  | Throw e => (Finished (Thrown e), s, [])
  | Write w k => start k (apply_write w s)
  | Read k => start (k s) s
  | Call c k => let '(r, s', cs) := start k s in (r, s', c :: cs)
  | Await p k => (Suspended p k, s, [])
  end.

(** The promises a run awaits, in order. *)
Definition awaited {W} (t : list (event W)) : list promise :=
  omap (fun e => match e with Awaited p _ => Some p | _ => None end) t.

Definition toasts {W} (t : list (event W)) : list (option string * string) :=
  omap (fun e => match e with
                 | Called (ShowToast title icon) => Some (title, icon)
                 | _ => None
                 end) t.

End Async.

(** ** [assets/page-template.vue] *)

Module PageTemplate.
Import JS Async.

(** The refs of the page: [loading], [items], [error]. *)
Record state : Type := State {
  loading : bool;
  items : list object;
  error : option string;      (* [string | null] *)
}.

Inductive assign : Type :=
| SetLoading (b : bool)             (* [loading.value = b] *)
| SetItems (l : list object)        (* [items.value = l] *)
| SetError (e : option string).     (* [error.value = e] *)

#[global] Instance store : Store assign state := fun w s =>
  match w with
  | SetLoading b => State b (items s) (error s)
  | SetItems l => State (loading s) l (error s)
  | SetError e => State (loading s) (items s) e
  end.

(** [const loading = ref(false); const items = ref([]); const error = ref(null)] *)
Definition initial : state := State false [] None.

(** [err instanceof Error ? err.message : "Failed to load data"] *)
Definition message_of (err : value) : string :=
  match err with
  | VError message => message
  | _ => "Failed to load data"
  end.

Definition loadData : prog assign state unit :=
  write (SetLoading true) ;;
  write (SetError None) ;;
  try_catch_finally
    (await (Delay 1000) ;;
     write (SetItems []))
    (fun err =>
       write (SetError (Some (message_of err))) ;;
       s ← read ;
       call (ShowToast (error s) "none"))
    (write (SetLoading false)).

(** [item.id] of an object, [undefined] when it has none. *)
Definition prop (o : object) (k : string) : value := default VUndefined (o !! k).

Definition onItemClick (item : object) : prog assign state unit :=
  call (NavigateTo ("/pages/detail/index?id=" +:+ to_string (prop item "id"))).

(** What the markup shows: the spinner ([v-if="loading"]) and the empty
    state with its Refresh button
    ([v-if="!loading && items.length === 0"]). *)
Definition spinner_shown (s : state) : bool := loading s.

Definition refresh_shown (s : state) : bool :=
  negb (loading s) && Nat.eqb (length (items s)) 0.

(** *** The page on the event loop

    A call of an async function that is not awaited runs it up to its first
    [await] and leaves the rest pending on the awaited promise.  The view is
    not redrawn when a ref is assigned but at a later re-render, so what is
    on screen ([screen]) can lag behind the refs ([view]); nothing is on
    screen before the first render. *)
Record page : Type := Page {
  view : state;
  screen : option state;      (* the refs as last rendered *)
  pending : list (promise * (outcome -> prog assign state unit));
  started : list promise;     (* every promise created so far *)
  calls : list api_call;      (* runtime and console calls so far *)
}.

Definition spawn (m : prog assign state unit) (pg : page) : page :=
  match start m (view pg) with
  | (Finished _, s, cs) =>
      Page s (screen pg) (pending pg) (started pg) (calls pg ++ cs)
  | (Suspended p k, s, cs) =>
      Page s (screen pg) (pending pg ++ [(p, k)]) (started pg ++ [p])
        (calls pg ++ cs)
  end.

Definition mounted : page := Page initial None [] [] [].

(** [onLoad(options => { console.log(...); loadData(); })] *)
Definition onLoad (options : value) (pg : page) : page :=
  spawn (call (ConsoleLog "Page loaded with options:" options) ;; loadData) pg.

(** [const onRefresh = () => { loadData(); }] *)
Definition onRefresh (pg : page) : page := spawn loadData pg.

(** After [onLoad], the page reacts to taps on Refresh (possible while the
    button is on screen; [onRefresh] and [loadData] check nothing
    themselves), to the settling of a pending promise, and to a re-render. *)
Inductive input : Type :=
| TapRefresh
| Settle (n : nat) (o : outcome)
| Render.

Definition refresh_on_screen (pg : page) : bool :=
  match screen pg with
  | Some s => refresh_shown s
  | None => false
  end.

Definition step (i : input) (pg : page) : option page :=
  match i with
  | TapRefresh =>
      if refresh_on_screen pg then Some (onRefresh pg) else None
  | Settle n o =>
      match pending pg !! n with
      | Some (p, k) =>
          if settles p o
          then Some (spawn (k o)
                       (Page (view pg) (screen pg) (delete n (pending pg))
                             (started pg) (calls pg)))
          else None
      | None => None
      end
  | Render =>
      Some (Page (view pg) (Some (view pg)) (pending pg) (started pg) (calls pg))
  end.

Fixpoint exec (inputs : list input) (pg : page) : option page :=
  match inputs with
  | [] => Some pg
  | i :: rest =>
      match step i pg with
      | Some pg' => exec rest pg'
      | None => None
      end
  end.

Definition taps (inputs : list input) : nat :=
  length (List.filter (fun i => match i with TapRefresh => true | _ => false end)
            inputs).

(** Every tap comes right after a re-render, that is, on a view that shows
    the current refs. *)
Fixpoint taps_on_fresh_view (inputs : list input) : bool :=
  match inputs with
  | [] => true
  | TapRefresh :: _ => false
  | Render :: TapRefresh :: rest => taps_on_fresh_view rest
  | _ :: rest => taps_on_fresh_view rest
  end.

(** The two situations the page is in as long as no two loads overlap: at
    rest (nothing pending, the spinner off, the list empty) or waiting for
    the single delay of a [loadData] in flight, whose remaining part
    finishes without a further [await] and leaves the page at rest. *)
Definition at_rest (pg : page) : Prop :=
  loading (view pg) = false /\ items (view pg) = [] /\ pending pg = [].

Definition waiting (pg : page) : Prop :=
  loading (view pg) = true /\
  exists k, pending pg = [(Delay 1000, k)] /\
    forall s, start (k (Fulfilled VUndefined)) s =
              (Finished (Normal tt), State false [] (error s), []).

(** What holds of the page in every situation: each pending promise is the
    delay of a [loadData] whose remaining part finishes without a further
    [await]; the list is empty and no error is set, in the refs and on
    screen; and while [loading] is [true] something is pending. *)
Definition delay_of_loadData
    (w : promise * (outcome -> prog assign state unit)) : Prop :=
  fst w = Delay 1000 /\
  forall s, start (snd w (Fulfilled VUndefined)) s =
            (Finished (Normal tt), State false [] (error s), []).

Definition clean (s : state) : Prop := items s = [] /\ error s = None.

Definition well_formed (pg : page) : Prop :=
  Forall delay_of_loadData (pending pg) /\
  clean (view pg) /\
  (forall s, screen pg = Some s -> clean s) /\
  (loading (view pg) = true -> pending pg <> []).

(** Let every pending promise settle, first come first served. *)
Definition settle_all (pg : page) : list input :=
  repeat (Settle 0 (Fulfilled VUndefined)) (length (pending pg)).

End PageTemplate.

(** ** [references/page-patterns.md]: list page *)

Module ListPage.
Import JS Async.

Record Item : Type := {
  id : number;
  title : string;
  status : number;
  createdAt : string;
  category : string;
}.

Record state : Type := State {
  searchText : string;
  currentTab : number;
  loading : bool;
  items : list Item;
}.

Inductive assign : Type :=
| SetLoading (b : bool)
| SetItems (l : list Item)
| SetCurrentTab (n : number).

#[global] Instance store : Store assign state := fun w s =>
  match w with
  | SetLoading b => State (searchText s) (currentTab s) b (items s)
  | SetItems l => State (searchText s) (currentTab s) (loading s) l
  | SetCurrentTab n => State (searchText s) n (loading s) (items s)
  end.

Definition initial : state := State EmptyString (Int 0) false [].

Definition statusTabs : list string := ["All"; "Pending"; "Completed"].

Section Computed.
(** [String.prototype.toLowerCase] of the run-time. *)
Variable toLowerCase : string -> string.

(** The filter by tab: [item.status === currentTab.value - 1] *)
Definition tab_matches (s : state) (item : Item) : bool :=
  strict_eq (status item) (minus_one (currentTab s)).

(** The filter by search:
    [item.title.toLowerCase().includes(searchText.value.toLowerCase())] *)
Definition search_matches (s : state) (item : Item) : bool :=
  includes (toLowerCase (title item)) (toLowerCase (searchText s)).

Definition filteredItems (s : state) : list Item :=
  let list := items s in
  let list :=
    if gt_zero (currentTab s)
    then List.filter (tab_matches s) list
    else list in
  let list :=
    if truthy_string (searchText s)
    then List.filter (search_matches s) list
    else list in
  list.
End Computed.

Definition loadData : prog assign state unit :=
  write (SetLoading true) ;;
  try_finally
    (write (SetItems []))
    (write (SetLoading false)).

Definition handleTabClick (index : number) : prog assign state unit :=
  write (SetCurrentTab index).

(** [const map = { 0: "Pending", 1: "Completed" }; return map[status] || "Unknown"] *)
Definition getStatusText (status : number) : string :=
  let map : gmap string string := {[ "0" := "Pending"; "1" := "Completed" ]} in
  or_else (map !! number_to_string status) "Unknown".

(** [const map = { 0: "warning", 1: "success" }; return map[status] || "default"] *)
Definition getStatusType (status : number) : string :=
  let map : gmap string string := {[ "0" := "warning"; "1" := "success" ]} in
  or_else (map !! number_to_string status) "default".

End ListPage.

(** ** [references/page-patterns.md]: detail page *)

Module DetailPage.
Import JS.

Definition getStatusText (status : number) : string :=
  let map : gmap string string := {[ "0" := "Pending"; "1" := "Completed" ]} in
  or_else (map !! number_to_string status) "Unknown".

Definition getStatusType (status : number) : string :=
  let map : gmap string string := {[ "0" := "warning"; "1" := "success" ]} in
  or_else (map !! number_to_string status) "default".

End DetailPage.

(** ** [references/page-patterns.md]: form page *)

Module FormPage.
Import JS Async.

(** The boolean refs of the page; the reactive [form] object is not
    touched by [handleSubmit]. *)
Record state : Type := State {
  submitting : bool;
  showCategoryPicker : bool;
  showDatePicker : bool;
}.

Inductive assign : Type :=
| SetSubmitting (b : bool).

#[global] Instance store : Store assign state := fun w s =>
  match w with
  | SetSubmitting b => State b (showCategoryPicker s) (showDatePicker s)
  end.

Definition initial : state := State false false false.

Definition handleSubmit : prog assign state unit :=
  try_catch_finally
    (valid ← await FormValidate ;
     (if negb (truthy valid) then ReturnStmt else Ret tt) ;;
     write (SetSubmitting true) ;;
     call (ShowToast (Some "Success") "success") ;;
     call (NavigateBackAfter 1500))
    (fun error => call (ConsoleError error))
    (write (SetSubmitting false)).

End FormPage.

(** ** [SKILL.md]: data fetching pattern *)

Module DataFetching.
Import JS Async.

Record state : Type := State {
  items : value;              (* whatever [api.getItems()] delivered *)
  loading : bool;
  error : option string;
}.

Inductive assign : Type :=
| SetLoading (b : bool)
| SetItems (data : value)
| SetError (e : option string).

#[global] Instance store : Store assign state := fun w s =>
  match w with
  | SetLoading b => State (items s) b (error s)
  | SetItems data => State data (loading s) (error s)
  | SetError e => State (items s) (loading s) e
  end.

Definition initial : state := State (VArray []) false None.

Definition loadData : prog assign state unit :=
  write (SetLoading true) ;;
  write (SetError None) ;;
  try_catch_finally
    (data ← await ApiGetItems ;
     write (SetItems data))
    (fun err =>
       write (SetError (Some "Failed to load data")) ;;
       s ← read ;
       call (ShowToast (error s) "none"))
    (write (SetLoading false)).

End DataFetching.

(** ** The error-handling convention the templates are measured against *)

Module Convention.
Import JS Async.




End Convention.

(** ** Reading a property of an object literal *)

Module Prototype.

(** The members every object literal inherits from [Object.prototype]:
    functions, and for [__proto__] the prototype itself. *)
Definition object_prototype : list string :=
  [ "constructor"; "hasOwnProperty"; "isPrototypeOf"; "propertyIsEnumerable";
    "toLocaleString"; "toString"; "valueOf"; "__proto__";
    "__defineGetter__"; "__defineSetter__";
    "__lookupGetter__"; "__lookupSetter__" ].

(** What [o[k]] evaluates to. *)
Inductive property (A : Type) : Type :=
| Own (a : A)        (* a property of the literal *)
| Inherited          (* a member of [Object.prototype] *)
| Missing.           (* [undefined] *)

Arguments Own {A} a.
Arguments Inherited {A}.
Arguments Missing {A}.

(** [o[k]]: an own property first, then the prototype. *)
Definition get {A} (o : gmap string A) (k : string) : property A :=
  match o !! k with
  | Some a => Own a
  | None =>
      if bool_decide (k ∈ object_prototype) then Inherited else Missing
  end.

(** Truthiness of [o[k]] when the own properties are objects: only
    [undefined] is falsy. *)
Definition found {A} (p : property A) : bool :=
  match p with
  | Own _ | Inherited => true
  | Missing => false
  end.

End Prototype.

(** ** [references/theme-guide.md]: the Pinia theme store *)

Module ThemeStore.
Import JS Prototype.

Record Theme : Type := {
  name : string;
  primary : string;
  primaryDark : string;
  success : string;
  warning : string;
  error : string;
  textPrimary : string;
  textSecondary : string;
  bgPage : string;
  bgCard : string;
}.

Record state : Type := State {
  currentTheme : string;
  themes : gmap string Theme;
}.

Definition default_theme : Theme := {|
  name := "Default";
  primary := "#1890ff";
  primaryDark := "#096dd9";
  success := "#52c41a";
  warning := "#faad14";
  error := "#f5222d";
  textPrimary := "#333333";
  textSecondary := "#999999";
  bgPage := "#f5f5f5";
  bgCard := "#ffffff";
|}.

Definition dark_theme : Theme := {|
  name := "Dark";
  primary := "#177ddc";
  primaryDark := "#1765ad";
  success := "#49aa19";
  warning := "#d89614";
  error := "#d32029";
  textPrimary := "#ffffff";
  textSecondary := "#8c8c8c";
  bgPage := "#141414";
  bgCard := "#1f1f1f";
|}.

(** [state: () => ({ currentTheme: 'default', themes: { default, dark } })] *)
Definition initial : state :=
  State "default" {[ "default" := default_theme; "dark" := dark_theme ]}.

(** [getters: { theme: (state) => state.themes[state.currentTheme] }] *)
Definition theme (s : state) : property Theme :=
  get (themes s) (currentTheme s).

(** The store together with what its actions reach outside it: the
    uni-app key-value storage and the console. *)
Record world : Type := World {
  store : state;
  storage : gmap string string;
  console : list string;
}.

Definition quote : string := String "034"%char EmptyString.

(** [uni.getStorageSync(key)]: the empty string when nothing is stored. *)
Definition getStorageSync (key : string) (w : world) : string :=
  default EmptyString (storage w !! key).

Definition setTheme (themeName : string) (w : world) : world :=
  if negb (found (get (themes (store w)) themeName))
  then
    World (store w) (storage w)
      (console w ++ ["Theme " +:+ quote +:+ themeName +:+ quote +:+ " not found"])
  else
    World (State themeName (themes (store w)))
      (<["theme" := themeName]> (storage w))
      (console w).

Definition loadSavedTheme (w : world) : world :=
  let saved := getStorageSync "theme" w in
  if truthy_string saved && found (get (themes (store w)) saved)
  then World (State saved (themes (store w))) (storage w) (console w)
  else w.

Inductive action : Type :=
| SetTheme (themeName : string)
| LoadSavedTheme.

Definition perform (a : action) (w : world) : world :=
  match a with
  | SetTheme themeName => setTheme themeName w
  | LoadSavedTheme => loadSavedTheme w
  end.

Definition perform_all (actions : list action) (w : world) : world :=
  fold_left (fun w a => perform a w) actions w.

(** A fresh store in an app whose storage holds [persisted] from earlier
    sessions. *)
Definition boot (persisted : gmap string string) : world :=
  World initial persisted [].

(** The selected name is a property of [themes], own or inherited. *)
Definition selected_found (w : world) : Prop :=
  found (theme (store w)) = true.

End ThemeStore.

(** ** [SKILL.md]: the short theme store *)

Module SkillThemeStore.

Record colors : Type := { primary : string }.

Record state : Type := State { currentTheme : string }.

Definition initial : state := State "default".

(** [themeColors() { const themes = {...}; return themes[this.currentTheme]; }] *)
Definition themeColors (s : state) : Prototype.property colors :=
  let themes : gmap string colors :=
    {[ "default" := {| primary := "#1890ff" |};
       "dark" := {| primary := "#0050b3" |} ]} in
  Prototype.get themes (currentTheme s).

End SkillThemeStore.

(** ** [assets/page-template.vue]: the [Item] interface *)

Module Interface.
Import JS.

Inductive ts_type : Type := TNumber | TString | TAny.

Record member : Type := Member {
  member_name : string;
  optional : bool;          (* declared with [?] *)
  member_type : ts_type;
}.

Record interface : Type := {
  members : list member;
  index_signature : option (ts_type * ts_type);   (* [[key: K]: V] *)
}.

(** [interface Item { id: number; title: string; description?: string;
    [key: string]: any; }] *)
Definition Item : interface := {|
  members := [ Member "id" false TNumber;
               Member "title" false TString;
               Member "description" true TString ];
  index_signature := Some (TString, TAny);
|}.

Definition required (i : interface) : list member :=
  List.filter (fun m => negb (optional m)) (members i).

Definition has_type (t : ts_type) (v : value) : bool :=
  match t, v with
  | TNumber, VNum _ => true
  | TString, VStr _ => true
  | TAny, _ => true
  | _, _ => false
  end.

(** A required member must be present with its type; an optional one may
    be missing or [undefined]. *)
Definition member_ok (o : object) (m : member) : bool :=
  match o !! member_name m with
  | Some VUndefined => optional m || has_type (member_type m) VUndefined
  | Some v => has_type (member_type m) v
  | None => optional m
  end.

Definition declared (i : interface) (k : string) : bool :=
  bool_decide (k ∈ map member_name (members i)).

(** Properties that are not declared members must fit the index signature;
    without one they are not allowed (as for an object literal). *)
Definition extras_ok (i : interface) (o : object) : bool :=
  forallb (fun kv =>
    declared i (fst kv) ||
    match index_signature i with
    | Some (_, t) => has_type t (snd kv)
    | None => false
    end) (map_to_list o).

Definition conforms (i : interface) (o : object) : bool :=
  forallb (member_ok o) (members i) && extras_ok i o.

End Interface.

(** ** Page registration in [pages.json] *)

Module PagesJson.

#[warnings="-register-all"] Inductive json : Type :=
| JBool (b : bool)
| JString (s : string)
| JArray (elems : list json)
| JObject (fields : list (string * json)).

Definition keys (j : json) : list string :=
  match j with
  | JObject fields => map fst fields
  | _ => []
  end.

Fixpoint assoc (k : string) (fields : list (string * json)) : option json :=
  match fields with
  | [] => None
  | (k', v) :: rest => if String.eqb k k' then Some v else assoc k rest
  end.

Definition field (k : string) (j : json) : option json :=
  match j with
  | JObject fields => assoc k fields
  | _ => None
  end.

(** [SKILL.md], "Register Page in pages.json". *)
Definition skill_register_page : json :=
  JObject [
    ("pages", JArray [
      JObject [
        ("path", JString "pages/newpage/index");
        ("style", JObject [ ("navigationBarTitleText", JString "Page Title") ])
      ]
    ])
  ].

(** [references/ui-libraries.md], "Create a New Page". *)
Definition ui_libraries_new_page : json :=
  JObject [
    ("pages", JArray [
      JObject [
        ("path", JString "pages/newpage/index");
        ("style", JObject [ ("navigationBarTitleText", JString "Page Title") ])
      ]
    ])
  ].

(** [references/ui-libraries.md], the easycom settings for uni-ui,
    TuniaoUI and for two libraries at once. *)
Definition easycom_uni_ui : json :=
  JObject [
    ("easycom", JObject [
      ("autoscan", JBool true);
      ("custom", JObject [
        ("^uni-(.*)", JString "@dcloudio/uni-ui/lib/uni-$1/uni-$1.vue") ])
    ])
  ].

Definition easycom_tuniao : json :=
  JObject [
    ("easycom", JObject [
      ("autoscan", JBool true);
      ("custom", JObject [
        ("^tn-(.*)", JString "@tuniao/tnui-vue3-uniapp/lib/components/tn-$1/tn-$1.vue") ])
    ])
  ].

Definition easycom_mixed : json :=
  JObject [
    ("easycom", JObject [
      ("custom", JObject [
        ("^u-(.*)", JString "uview-plus/components/u-$1/u-$1.vue");
        ("^uni-(.*)", JString "@dcloudio/uni-ui/lib/uni-$1/uni-$1.vue") ])
    ])
  ].

(** Every [pages.json] block of the skill documents. *)
Definition examples : list json :=
  [ skill_register_page; ui_libraries_new_page;
    easycom_uni_ui; easycom_tuniao; easycom_mixed ].

(** The page registrations of a [pages.json]: the elements of ["pages"]. *)
Definition registrations (doc : json) : list json :=
  match field "pages" doc with
  | Some (JArray elems) => elems
  | _ => []
  end.

Definition is_string (j : json) : bool :=
  match j with
  | JString _ => true
  | _ => false
  end.

(** An entry with a string ["path"] and a ["style"] object whose
    ["navigationBarTitleText"] is a string. *)
Definition has_path_and_title (entry : json) : bool :=
  match field "path" entry, field "style" entry with
  | Some path, Some (JObject style) =>
      is_string path &&
      match assoc "navigationBarTitleText" style with
      | Some t => is_string t
      | None => false
      end
  | _, _ => false
  end.

(** ... and nothing else. *)
Definition only_path_and_title (entry : json) : bool :=
  has_path_and_title entry &&
  bool_decide (keys entry = ["path"; "style"]) &&
  match field "style" entry with
  | Some style => bool_decide (keys style = ["navigationBarTitleText"])
  | None => false
  end.

End PagesJson.

(** ** SCSS: the design tokens and the styles that use them *)

Module Scss.

Inductive category : Type := Color | Spacing | Typography | Radius.

#[global] Instance category_eq_dec : EqDecision category.
Proof. solve_decision. Defined.

Record token : Type := Token {
  token_name : string;       (* without the leading [$] *)
  token_value : string;
  token_category : category;
}.

(** [src/styles/theme.scss] as [SKILL.md] gives it; the category is the
    comment heading the group ("Theme colors" and "Neutral colors",
    "Spacing scale", "Typography", "Border radius"). *)
Definition theme_scss : list token := [
  Token "theme-primary" "#1890ff" Color;
  Token "theme-success" "#52c41a" Color;
  Token "theme-warning" "#faad14" Color;
  Token "theme-error" "#f5222d" Color;
  Token "color-text-primary" "#333333" Color;
  Token "color-text-regular" "#666666" Color;
  Token "color-text-secondary" "#999999" Color;
  Token "color-bg-page" "#f5f5f5" Color;
  Token "color-bg-card" "#ffffff" Color;
  Token "spacing-xs" "8rpx" Spacing;
  Token "spacing-sm" "16rpx" Spacing;
  Token "spacing-md" "24rpx" Spacing;
  Token "spacing-lg" "32rpx" Spacing;
  Token "spacing-xl" "48rpx" Spacing;
  Token "font-size-xs" "20rpx" Typography;
  Token "font-size-sm" "24rpx" Typography;
  Token "font-size-base" "28rpx" Typography;
  Token "font-size-lg" "32rpx" Typography;
  Token "font-size-xl" "36rpx" Typography;
  Token "border-radius-sm" "4rpx" Radius;
  Token "border-radius-md" "8rpx" Radius;
  Token "border-radius-lg" "16rpx" Radius;
  Token "border-radius-circle" "50%" Radius
].

Definition token_names : gset string :=
  list_to_set (map token_name theme_scss).

Definition categories : list category :=
  map token_category theme_scss.

(** A declaration's value is a literal or a [$variable]. *)
Inductive term : Type :=
| Lit (text : string)
| Var (name : string).

#[warnings="-register-all"] Inductive rule : Type :=
| Rule (selector : string) (decls : list (string * term)) (nested : list rule).

(** The [<style lang="scss" scoped>] block of [assets/page-template.vue]. *)
Definition page_template_style : list rule := [
  Rule ".page-container"
    [ ("min-height", Lit "100vh");
      ("background-color", Var "color-bg-page") ] [];
  Rule ".page-header"
    [ ("background-color", Var "color-bg-card");
      ("padding", Var "spacing-md");
      ("margin-bottom", Var "spacing-md") ]
    [ Rule ".page-title"
        [ ("display", Lit "block");
          ("font-size", Var "font-size-xl");
          ("font-weight", Lit "bold");
          ("color", Var "color-text-primary");
          ("margin-bottom", Var "spacing-xs") ] [];
      Rule ".page-subtitle"
        [ ("display", Lit "block");
          ("font-size", Var "font-size-sm");
          ("color", Var "color-text-secondary") ] [] ];
  Rule ".page-content"
    [ ("padding", Var "spacing-md") ] [];
  Rule ".loading-container"
    [ ("display", Lit "flex");
      ("justify-content", Lit "center");
      ("align-items", Lit "center");
      ("padding", Var "spacing-xl") ] []
].

Definition term_vars (t : term) : list string :=
  match t with
  | Lit _ => []
  | Var name => [name]
  end.

(** The variables a rule refers to, nested rules included. *)
Fixpoint rule_vars (r : rule) : list string :=
  match r with
  | Rule _ decls nested =>
      concat (map (fun d => term_vars (snd d)) decls) ++
      concat (map rule_vars nested)
  end.

Definition sheet_vars (sheet : list rule) : list string :=
  concat (map rule_vars sheet).

End Scss.

(** ** [references/page-patterns.md]: the rest of the list page *)

Module ListPageView.
Import JS Async ListPage.

(** The spinner ([v-if="loading"]) and the empty state
    ([v-if="!loading && filteredItems.length === 0"]). *)
Definition spinner_shown (s : state) : bool := loading s.

Definition empty_shown (toLowerCase : string -> string) (s : state) : bool :=
  negb (loading s) && Nat.eqb (length (filteredItems toLowerCase s)) 0.

(** [uni.navigateTo({ url: `/pages/detail/index?id=${item.id}` })] *)
Definition detail_url (item : Item) : string :=
  "/pages/detail/index?id=" +:+ to_string (VNum (id item)).

Definition viewDetail (item : Item) : prog assign state unit :=
  call (NavigateTo (detail_url item)).

End ListPageView.

(** ** [references/theme-guide.md]: the code around the theme store *)

Module ThemeUsage.
Import JS Prototype ThemeStore.

(** The build target, which decides the [#ifdef] blocks that are compiled. *)
Inductive platform : Type := MP_WEIXIN | H5 | MP_ALIPAY | OtherPlatform.

(** "Platform-Specific Themes":
    [let defaultTheme = 'default';]
    [#ifdef MP-WEIXIN defaultTheme = 'wechat'; #endif]
    [#ifdef H5 defaultTheme = 'web'; #endif] *)
Definition defaultTheme (p : platform) : string :=
  let defaultTheme := "default" in
  let defaultTheme :=
    match p with MP_WEIXIN => "wechat" | _ => defaultTheme end in
  let defaultTheme :=
    match p with H5 => "web" | _ => defaultTheme end in
  defaultTheme.

(** [themeStore.setTheme(defaultTheme);] *)
Definition applyDefaultTheme (p : platform) (w : world) : world :=
  setTheme (defaultTheme p) w.

(** "Platform Detection": the first [return] that is compiled in. *)
Definition getPlatformTheme (p : platform) : string :=
  match p with
  | MP_WEIXIN => "wechat"
  | H5 => "web"
  | MP_ALIPAY => "alipay"
  | OtherPlatform => "default"
  end.

(** "Dark Mode Support":
    [if (systemInfo.theme) { return systemInfo.theme === 'dark'; } return false;]
    with [None] for a system that reports no theme. *)
Definition checkDarkMode (system_theme : option string) : bool :=
  match system_theme with
  | Some t => if truthy_string t then String.eqb t "dark" else false
  | None => false
  end.

(** [uni.onThemeChange((res) => { ...
      themeStore.setTheme(res.theme === 'dark' ? 'dark' : 'default'); })] *)
Definition onThemeChange (res_theme : string) (w : world) : world :=
  let w := World (store w) (storage w)
             (console w ++ ["Theme changed: " +:+ res_theme]) in
  setTheme (if String.eqb res_theme "dark" then "dark" else "default") w.

(** The computed [themeStyles] of the component that uses the store:
    [{ '--primary-color': themeStore.theme.primary, ... }].  A member
    inherited from [Object.prototype] has none of the three colours, so each
    value is [undefined]; reading a colour of [undefined] is a [TypeError],
    here [None]. *)
Definition themeStyles (s : state) : option (gmap string value) :=
  match theme s with
  | Own t =>
      Some {[ "--primary-color" := VStr (primary t);
              "--text-primary" := VStr (textPrimary t);
              "--bg-page" := VStr (bgPage t) ]}
  | Inherited =>
      Some {[ "--primary-color" := VUndefined;
              "--text-primary" := VUndefined;
              "--bg-page" := VUndefined ]}
  | Missing => None
  end.

(** How many of the actions are a [setTheme] with a name under which the
    [themes] of the initial store have no property at all. *)
Definition rejected_names (actions : list action) : nat :=
  length (List.filter
            (fun a => match a with
                      | SetTheme themeName =>
                          negb (found (get (themes initial) themeName))
                      | LoadSavedTheme => false
                      end) actions).

End ThemeUsage.

(** ** [SKILL.md]: requests *)

Module Request.
Import JS Async.

(** The part of [UniApp.RequestOptions] the code reads and writes. *)
Record RequestOptions : Type := Options {
  url : string;
  method : option string;
  header : option (gmap string string);   (* [None]: no [header] given *)
}.

(** [export const request = (options) => { if (token) { options.header =
    { ...options.header, Authorization: `Bearer ${token}` }; }
    return uni.request(options); }]: the options that reach [uni.request],
    for the current value of the module's [token]. *)
Definition request (token : string) (options : RequestOptions) : RequestOptions :=
  if truthy_string token
  then Options (url options) (method options)
         (Some (<["Authorization" := "Bearer " +:+ token]>
                  (default ∅ (header options))))
  else options.

(** [export const setToken = (newToken) => { token = newToken; }] *)
Definition setToken (newToken : string) (token : string) : string := newToken.

(** What [uni.request] delivers. *)
Record response : Type := Response {
  statusCode : Z;
  data : value;
}.

Inductive request_outcome : Type :=
| Responded (res : response)
| Failed (reason : value).

(** [async getItems() { const res = await uni.request({...}); return res.data; }]:
    how the promise it returns settles. *)
Definition getItems (r : request_outcome) : outcome :=
  match r with
  | Responded res => Fulfilled (data res)
  | Failed reason => Rejected reason
  end.

(** The promises of a run in which [uni.request] ends as [r]. *)
Definition network (r : request_outcome) (p : promise) : outcome :=
  match p with
  | ApiGetItems => getItems r
  | _ => Fulfilled VUndefined
  end.

End Request.

(** ** [assets/page-template.vue]: [loadData] around the call that replaces
    its placeholder ("TODO: Replace with actual API call") *)

Module PageSkeleton.
Import JS Async PageTemplate.

(** The [catch] block of [loadData]. *)
Definition on_error (err : value) : prog assign state unit :=
  write (SetError (Some (message_of err))) ;;
  s ← read ;
  call (ShowToast (error s) "none").

(** [loadData] with [body] as the content of its [try] block. *)
Definition loadData_with (body : prog assign state unit) : prog assign state unit :=
  write (SetLoading true) ;;
  write (SetError None) ;;
  try_catch_finally body on_error (write (SetLoading false)).

(** The [try] block as shipped. *)
Definition placeholder : prog assign state unit :=
  await (Delay 1000) ;;
  write (SetItems []).

End PageSkeleton.

(** ** SCSS: the other style blocks and the per-build theme files *)

Module Styles.
Import Scss.

(** [references/page-patterns.md], list page. *)
Definition list_page_style : list rule := [
  Rule ".list-page"
    [ ("min-height", Lit "100vh");
      ("background-color", Var "color-bg-page") ] [];
  Rule ".search-bar"
    [ ("padding", Var "spacing-md");
      ("background-color", Var "color-bg-card") ] [];
  Rule ".list-container"
    [ ("padding", Var "spacing-md") ]
    [ Rule ".list-item"
        [ ("background-color", Var "color-bg-card");
          ("border-radius", Var "border-radius-md");
          ("padding", Var "spacing-md");
          ("margin-bottom", Var "spacing-md") ]
        [ Rule ".item-header"
            [ ("display", Lit "flex");
              ("justify-content", Lit "space-between");
              ("align-items", Lit "center");
              ("margin-bottom", Var "spacing-sm") ]
            [ Rule ".item-title"
                [ ("font-size", Var "font-size-base");
                  ("font-weight", Lit "bold");
                  ("color", Var "color-text-primary") ] [] ];
          Rule ".item-body" []
            [ Rule ".info-row"
                [ ("display", Lit "flex");
                  ("align-items", Lit "center");
                  ("gap", Var "spacing-sm");
                  ("margin-bottom", Var "spacing-xs") ]
                [ Rule "&:last-child" [ ("margin-bottom", Lit "0") ] [];
                  Rule ".info-text"
                    [ ("font-size", Var "font-size-sm");
                      ("color", Var "color-text-secondary") ] [] ] ] ] ];
  Rule ".loading"
    [ ("display", Lit "flex");
      ("justify-content", Lit "center");
      ("padding", Var "spacing-lg") ] []
].

(** [references/page-patterns.md], detail page. *)
Definition detail_page_style : list rule := [
  Rule ".detail-page"
    [ ("min-height", Lit "100vh");
      ("background-color", Var "color-bg-page");
      ("padding-bottom", Lit "120rpx") ] [];
  Rule ".header-card"
    [ ("background-color", Var "color-bg-card");
      ("padding", Var "spacing-md");
      ("margin-bottom", Var "spacing-md") ]
    [ Rule ".header-row"
        [ ("display", Lit "flex");
          ("justify-content", Lit "space-between");
          ("align-items", Lit "center");
          ("margin-bottom", Var "spacing-sm") ]
        [ Rule ".title"
            [ ("font-size", Var "font-size-xl");
              ("font-weight", Lit "bold");
              ("color", Var "color-text-primary") ] [] ];
      Rule ".subtitle"
        [ ("font-size", Var "font-size-sm");
          ("color", Var "color-text-secondary") ] [] ];
  Rule ".info-sections" []
    [ Rule ".section-title"
        [ ("display", Lit "flex");
          ("align-items", Lit "center");
          ("gap", Var "spacing-sm") ]
        [ Rule "text"
            [ ("font-size", Var "font-size-lg");
              ("font-weight", Lit "bold");
              ("color", Var "color-text-primary") ] [] ];
      Rule ".info-list" []
        [ Rule ".info-item"
            [ ("display", Lit "flex");
              ("justify-content", Lit "space-between");
              ("margin-bottom", Var "spacing-sm") ]
            [ Rule "&:last-child" [ ("margin-bottom", Lit "0") ] [];
              Rule ".label"
                [ ("font-size", Var "font-size-base");
                  ("color", Var "color-text-secondary") ] [];
              Rule ".value"
                [ ("font-size", Var "font-size-base");
                  ("color", Var "color-text-primary") ] [] ] ];
      Rule ".detail-content"
        [ ("font-size", Var "font-size-base");
          ("color", Var "color-text-primary");
          ("line-height", Lit "1.6") ] [] ];
  Rule ".bottom-actions"
    [ ("position", Lit "fixed");
      ("bottom", Lit "0");
      ("left", Lit "0");
      ("right", Lit "0");
      ("background-color", Var "color-bg-card");
      ("padding", Var "spacing-md");
      ("box-shadow", Lit "0 -2rpx 8rpx rgba(0, 0, 0, 0.1)") ] []
].

(** [references/page-patterns.md], form page. *)
Definition form_page_style : list rule := [
  Rule ".form-page" [ ("padding", Var "spacing-md") ] [];
  Rule ".submit-section" [ ("margin-top", Var "spacing-xl") ] []
].

(** [references/page-patterns.md], search page. *)
Definition search_page_style : list rule := [
  Rule ".search-page" [ ("padding", Var "spacing-md") ] [];
  Rule ".search-section" [ ("margin-bottom", Var "spacing-md") ] [];
  Rule ".filter-section" []
    [ Rule ".filter-group"
        [ ("margin-bottom", Var "spacing-md") ]
        [ Rule ".filter-label"
            [ ("display", Lit "block");
              ("font-size", Var "font-size-base");
              ("color", Var "color-text-primary");
              ("margin-bottom", Var "spacing-sm") ] [] ] ];
  Rule ".results-section"
    [ ("margin-top", Var "spacing-md") ]
    [ Rule ".results-count"
        [ ("font-size", Var "font-size-sm");
          ("color", Var "color-text-secondary") ] [] ]
].

(** [references/page-patterns.md], empty state page. *)
Definition empty_page_style : list rule := [
  Rule ".empty-page"
    [ ("min-height", Lit "100vh");
      ("display", Lit "flex");
      ("align-items", Lit "center");
      ("justify-content", Lit "center") ] []
].

(** [references/theme-guide.md], theme selector component. *)
Definition theme_selector_style : list rule := [
  Rule ".theme-selector"
    [ ("padding", Var "spacing-md") ]
    [ Rule ".theme-list"
        [ ("display", Lit "flex");
          ("flex-wrap", Lit "wrap");
          ("gap", Var "spacing-md") ] [];
      Rule ".theme-item"
        [ ("display", Lit "flex");
          ("flex-direction", Lit "column");
          ("align-items", Lit "center");
          ("padding", Var "spacing-md");
          ("border", Lit "2rpx solid transparent");
          ("border-radius", Var "border-radius-md") ]
        [ Rule "&.active" [ ("border-color", Lit "currentTheme.primary") ] [] ];
      Rule ".theme-preview"
        [ ("width", Lit "80rpx");
          ("height", Lit "80rpx");
          ("border-radius", Var "border-radius-md");
          ("margin-bottom", Var "spacing-sm") ] [];
      Rule ".theme-name"
        [ ("font-size", Var "font-size-sm");
          ("color", Var "color-text-primary") ] [] ]
].

(** [references/ui-libraries.md], custom card component. *)
Definition custom_card_style : list rule := [
  Rule ".custom-card"
    [ ("background-color", Var "color-bg-card");
      ("border-radius", Var "border-radius-md");
      ("padding", Var "spacing-md");
      ("margin-bottom", Var "spacing-md") ]
    [ Rule ".card-header" [ ("margin-bottom", Var "spacing-sm") ] [];
      Rule ".card-body" [ ("margin-bottom", Var "spacing-sm") ] [];
      Rule ".card-footer" [ ("margin-top", Var "spacing-sm") ] [] ]
].

(** Every style block of the templates that refers to SCSS variables. *)
Definition template_styles : list (list rule) :=
  [ page_template_style; list_page_style; detail_page_style;
    form_page_style; search_page_style; empty_page_style;
    theme_selector_style; custom_card_style ].

(** [references/theme-guide.md], "SCSS Variables per Build": the two files
    of which the build script links one as [theme.scss]. *)
Definition theme_user_scss : list (string * string) := [
  ("primary", "#1890ff");
  ("success", "#52c41a");
  ("warning", "#faad14");
  ("error", "#f5222d");
  ("text-primary", "#333333");
  ("text-secondary", "#999999");
  ("bg-page", "#f5f5f5");
  ("bg-card", "#ffffff")
].

Definition theme_admin_scss : list (string * string) := [
  ("primary", "#0050b3");
  ("success", "#52c41a");
  ("warning", "#faad14");
  ("error", "#f5222d");
  ("text-primary", "#333333");
  ("text-secondary", "#999999");
  ("bg-page", "#f0f2f5");
  ("bg-card", "#ffffff")
].

(** The variables of a sheet that a theme file leaves undefined. *)
Definition undefined_vars (defined : list string) (sheet : list rule) : list string :=
  List.filter (fun v => negb (bool_decide (v ∈ defined))) (sheet_vars sheet).

End Styles.

(** * What the templates do *)

(** ** Running the async functions *)

Section AsyncRuns.
Import JS Async.

Lemma page_loadData_run (oracle : promise -> outcome) (s : PageTemplate.state) :
  run oracle PageTemplate.loadData s =
  match oracle (Delay 1000) with
  | Fulfilled _ =>
      Result (Normal tt) (PageTemplate.State false [] None)
        [Wrote (PageTemplate.SetLoading true);
         Wrote (PageTemplate.SetError None);
         Awaited (Delay 1000) (oracle (Delay 1000));
         Wrote (PageTemplate.SetItems []);
         Wrote (PageTemplate.SetLoading false)]
  | Rejected err =>
      Result (Normal tt)
        (PageTemplate.State false (PageTemplate.items s)
           (Some (PageTemplate.message_of err)))
        [Wrote (PageTemplate.SetLoading true);
         Wrote (PageTemplate.SetError None);
         Awaited (Delay 1000) (oracle (Delay 1000));
         Wrote (PageTemplate.SetError (Some (PageTemplate.message_of err)));
         Called (ShowToast (Some (PageTemplate.message_of err)) "none");
         Wrote (PageTemplate.SetLoading false)]
  end.
Proof.
  cbn. destruct (oracle (Delay 1000)); reflexivity.
Qed.

Lemma fetch_loadData_run (oracle : promise -> outcome) (s : DataFetching.state) :
  run oracle DataFetching.loadData s =
  match oracle ApiGetItems with
  | Fulfilled data =>
      Result (Normal tt) (DataFetching.State data false None)
        [Wrote (DataFetching.SetLoading true);
         Wrote (DataFetching.SetError None);
         Awaited ApiGetItems (oracle ApiGetItems);
         Wrote (DataFetching.SetItems data);
         Wrote (DataFetching.SetLoading false)]
  | Rejected _ =>
      Result (Normal tt)
        (DataFetching.State (DataFetching.items s) false
           (Some "Failed to load data"))
        [Wrote (DataFetching.SetLoading true);
         Wrote (DataFetching.SetError None);
         Awaited ApiGetItems (oracle ApiGetItems);
         Wrote (DataFetching.SetError (Some "Failed to load data"));
         Called (ShowToast (Some "Failed to load data") "none");
         Wrote (DataFetching.SetLoading false)]
  end.
Proof.
  cbn. destruct (oracle ApiGetItems); reflexivity.
Qed.

Lemma list_loadData_run (oracle : promise -> outcome) (s : ListPage.state) :
  run oracle ListPage.loadData s =
  Result (Normal tt)
    (ListPage.State (ListPage.searchText s) (ListPage.currentTab s) false [])
    [Wrote (ListPage.SetLoading true);
     Wrote (ListPage.SetItems []);
     Wrote (ListPage.SetLoading false)].
Proof. reflexivity. Qed.

Lemma handleSubmit_run (oracle : promise -> outcome) (s : FormPage.state) :
  run oracle FormPage.handleSubmit s =
  let off := FormPage.State false (FormPage.showCategoryPicker s)
               (FormPage.showDatePicker s) in
  match oracle FormValidate with
  | Fulfilled valid =>
      if truthy valid
      then Result (Normal tt) off
             [Awaited FormValidate (oracle FormValidate);
              Wrote (FormPage.SetSubmitting true);
              Called (ShowToast (Some "Success") "success");
              Called (NavigateBackAfter 1500);
              Wrote (FormPage.SetSubmitting false)]
      else Result Returned off
             [Awaited FormValidate (oracle FormValidate);
              Wrote (FormPage.SetSubmitting false)]
  | Rejected reason =>
      Result (Normal tt) off
        [Awaited FormValidate (oracle FormValidate);
         Called (ConsoleError reason);
         Wrote (FormPage.SetSubmitting false)]
  end.
Proof.
  cbn. destruct (oracle FormValidate) as [valid|reason]; cbn.
  - destruct (truthy valid); reflexivity.
  - reflexivity.
Qed.

End AsyncRuns.

(** ** C1: the page-loading pattern *)

(** C1.  Every run of the template's [loadData] first sets [loading] to
    [true] (and resets [error]), then awaits the one-second delay, then, when
    the delay is over, stores the list in [items], and last of all sets
    [loading] back to [false].  Were the awaited promise rejected, the error
    message would be stored and shown in a toast instead of the list being
    stored, and [loading] would be cleared all the same.  On both paths
    [loadData] completes normally with [loading = false].  Since the delay
    can only be fulfilled, every actual run is the first sequence. *)
Theorem loadData_follows_loading_pattern :
  forall (oracle : Async.promise -> Async.outcome) (s : PageTemplate.state),
    let r := Async.run oracle PageTemplate.loadData s in
    Async.how r = Async.Normal tt /\
    PageTemplate.loading (Async.refs r) = false /\
    Async.trace r =
     ([Async.Wrote (PageTemplate.SetLoading true);
       Async.Wrote (PageTemplate.SetError None);
       Async.Awaited (Async.Delay 1000) (oracle (Async.Delay 1000))] ++
      match oracle (Async.Delay 1000) with
      | Async.Fulfilled _ =>
          [Async.Wrote (PageTemplate.SetItems [])]
      | Async.Rejected err =>
          [Async.Wrote (PageTemplate.SetError (Some (PageTemplate.message_of err)));
           Async.Called (Async.ShowToast (Some (PageTemplate.message_of err)) "none")]
      end ++
      [Async.Wrote (PageTemplate.SetLoading false)])%list /\
    match oracle (Async.Delay 1000) with
    | Async.Fulfilled _ => PageTemplate.items (Async.refs r) = []
    | Async.Rejected _ => PageTemplate.items (Async.refs r) = PageTemplate.items s
    end /\
    (Async.settles (Async.Delay 1000) (oracle (Async.Delay 1000)) = true ->
     r = Async.Result (Async.Normal tt) (PageTemplate.State false [] None)
           [Async.Wrote (PageTemplate.SetLoading true);
            Async.Wrote (PageTemplate.SetError None);
            Async.Awaited (Async.Delay 1000) (Async.Fulfilled JS.VUndefined);
            Async.Wrote (PageTemplate.SetItems []);
            Async.Wrote (PageTemplate.SetLoading false)]).
Proof.
  intros oracle s r. subst r. rewrite page_loadData_run.
  destruct (oracle (Async.Delay 1000)) as [v|reason]; cbn.
  - repeat split. destruct v; intros Hsettles; try discriminate. reflexivity.
  - repeat split. discriminate.
Qed.

Lemma loadData_follows_loading_pattern_witness :
  Async.run (fun _ => Async.Fulfilled JS.VUndefined)
    PageTemplate.loadData (PageTemplate.State false [] (Some "stale")) =
  Async.Result (Async.Normal tt) (PageTemplate.State false [] None)
    [Async.Wrote (PageTemplate.SetLoading true);
     Async.Wrote (PageTemplate.SetError None);
     Async.Awaited (Async.Delay 1000) (Async.Fulfilled JS.VUndefined);
     Async.Wrote (PageTemplate.SetItems []);
     Async.Wrote (PageTemplate.SetLoading false)].
Proof.
  apply (loadData_follows_loading_pattern
           (fun _ => Async.Fulfilled JS.VUndefined)
           (PageTemplate.State false [] (Some "stale"))).
  reflexivity.
Defined.

(** ** C2: error handling in the templates *)

Section ErrorHandling.
Import JS Async Convention.




End ErrorHandling.




(** ** C4: the page template on the event loop *)

Section EventLoop.
Import JS Async PageTemplate.

Lemma spawn_loadData_at_rest (pg : page) :
  at_rest pg ->
  waiting (spawn loadData pg) /\
  started (spawn loadData pg) = (started pg ++ [Delay 1000])%list /\
  calls (spawn loadData pg) = calls pg.
Proof.
  intros (Hload & Hitems & Hpend).
  unfold spawn. cbn. rewrite Hpend, app_nil_r. cbn.
  repeat split. eexists. split; [reflexivity|]. intros s. reflexivity.
Qed.

Lemma onLoad_mounted (options : value) :
  waiting (onLoad options mounted) /\
  started (onLoad options mounted) = [Delay 1000] /\
  calls (onLoad options mounted) = [ConsoleLog "Page loaded with options:" options].
Proof.
  unfold onLoad, spawn. cbn.
  repeat split. eexists. split; [reflexivity|]. intros s. reflexivity.
Qed.

Lemma onLoad_well_formed (options : value) :
  well_formed (onLoad options mounted).
Proof.
  unfold onLoad, spawn. cbn. split; [|split; [|split]].
  - constructor; [|constructor]. split; [reflexivity|]. intros s. reflexivity.
  - split; reflexivity.
  - intros s Hs. discriminate.
  - intros _. discriminate.
Qed.

(** A step keeps the page well formed, starts one delay if it is a tap and
    none otherwise, and makes no runtime call. *)
Lemma step_keeps_well_formed (i : input) (pg pg' : page) :
  step i pg = Some pg' ->
  well_formed pg ->
  well_formed pg' /\
  started pg' = (started pg ++ repeat (Delay 1000) (taps [i]))%list /\
  calls pg' = calls pg.
Proof.
  intros Hstep (Hpend & (Hitems & Herror) & Hscreen & Hload).
  destruct i as [|n o|]; cbn [step] in Hstep.
  - destruct (refresh_on_screen pg); [|discriminate].
    injection Hstep as <-. unfold onRefresh, spawn. cbn.
    rewrite app_nil_r. split; [|split; reflexivity].
    split; [|split; [|split]].
    + apply Forall_app. split; [exact Hpend|].
      constructor; [|constructor]. split; [reflexivity|].
      intros s. reflexivity.
    + split; [exact Hitems|reflexivity].
    + exact Hscreen.
    + intros _ Hnil. apply app_eq_nil in Hnil as (_ & Hnil). discriminate.
  - destruct (pending pg !! n) as [[p k]|] eqn:Hn; [|discriminate].
    destruct (Forall_lookup_1 _ _ _ _ Hpend Hn) as (Hp & Hk).
    cbn [fst snd] in Hp, Hk. subst p.
    destruct o as [v|reason]; [destruct v|]; cbn [settles] in Hstep;
      try discriminate.
    injection Hstep as <-. unfold spawn. cbn [view]. rewrite Hk.
    cbn [screen pending started calls view]. rewrite !app_nil_r.
    split; [|split; reflexivity].
    split; [|split; [|split]].
    + apply Forall_delete. exact Hpend.
    + split; [reflexivity|exact Herror].
    + exact Hscreen.
    + discriminate.
  - injection Hstep as <-. cbn. rewrite app_nil_r.
    split; [|split; reflexivity].
    split; [exact Hpend|]. split; [split; assumption|]. split; [|exact Hload].
    intros s Hs. injection Hs as <-. split; assumption.
Qed.

Lemma exec_keeps_well_formed (inputs : list input) : forall (pg pg' : page),
  exec inputs pg = Some pg' ->
  well_formed pg ->
  well_formed pg' /\
  started pg' = (started pg ++ repeat (Delay 1000) (taps inputs))%list /\
  calls pg' = calls pg.
Proof.
  induction inputs as [|i inputs IH]; intros pg pg' Hexec Hwf; cbn in Hexec.
  - injection Hexec as <-. rewrite app_nil_r. auto.
  - destruct (step i pg) as [pg1|] eqn:Hstep; [|discriminate].
    destruct (step_keeps_well_formed i pg pg1 Hstep Hwf) as (Hwf1 & Hs1 & Hc1).
    destruct (IH pg1 pg' Hexec Hwf1) as (Hwf' & Hs' & Hc').
    split; [exact Hwf'|]. split; [|congruence].
    rewrite Hs', Hs1, <- app_assoc, <- repeat_app. f_equal. f_equal.
    unfold taps. cbn. destruct i; cbn; reflexivity.
Qed.

(** As long as no two loads overlap, a step keeps it so, provided a tap
    finds the current refs on screen. *)
Lemma step_keeps_shape (i : input) (pg pg' : page) :
  step i pg = Some pg' ->
  (i = TapRefresh -> screen pg = Some (view pg)) ->
  at_rest pg \/ waiting pg ->
  at_rest pg' \/ waiting pg'.
Proof.
  intros Hstep Hfresh Hshape. destruct i as [|n o|]; cbn [step] in Hstep.
  - unfold refresh_on_screen in Hstep. rewrite (Hfresh eq_refl) in Hstep.
    destruct (refresh_shown (view pg)) eqn:Hshown; [|discriminate].
    injection Hstep as <-.
    destruct Hshape as [Hrest|(Hload & _)].
    + right. apply (spawn_loadData_at_rest pg Hrest).
    + unfold refresh_shown in Hshown. rewrite Hload in Hshown. discriminate.
  - destruct Hshape as [(_ & _ & Hpend)|(Hload & k & Hpend & Hk)].
    + rewrite Hpend in Hstep. discriminate.
    + rewrite Hpend in Hstep. destruct n as [|n]; cbn in Hstep; [|discriminate].
      destruct o as [v|reason]; [destruct v|]; try discriminate.
      injection Hstep as <-.
      unfold spawn. cbn. rewrite Hk. cbn.
      left. repeat split.
  - injection Hstep as <-. exact Hshape.
Qed.

Lemma fresh_after_settle (n : nat) (o : outcome) (rest : list input) :
  taps_on_fresh_view (Settle n o :: rest) = taps_on_fresh_view rest.
Proof. reflexivity. Qed.

Lemma fresh_after_render_tap (rest : list input) :
  taps_on_fresh_view (Render :: TapRefresh :: rest) = taps_on_fresh_view rest.
Proof. reflexivity. Qed.

Lemma fresh_after_render (i : input) (rest : list input) :
  i <> TapRefresh ->
  taps_on_fresh_view (Render :: i :: rest) = taps_on_fresh_view (i :: rest).
Proof. destruct i; [congruence|reflexivity|reflexivity]. Qed.

Lemma exec_fresh_keeps_shape (n : nat) : forall (inputs : list input) (pg pg' : page),
  (length inputs <= n)%nat ->
  taps_on_fresh_view inputs = true ->
  exec inputs pg = Some pg' ->
  at_rest pg \/ waiting pg ->
  at_rest pg' \/ waiting pg'.
Proof.
  induction n as [|n IH]; intros inputs pg pg' Hlen Hfresh Hexec Hshape.
  - destruct inputs; [|cbn in Hlen; lia]. injection Hexec as <-. exact Hshape.
  - destruct inputs as [|i rest].
    { injection Hexec as <-. exact Hshape. }
    cbn [length] in Hlen. destruct i as [|m o|].
    + discriminate.
    + rewrite fresh_after_settle in Hfresh. cbn [exec] in Hexec.
      destruct (step (Settle m o) pg) as [pg1|] eqn:Hstep; [|discriminate].
      apply (IH rest pg1 pg'); [lia|assumption|assumption|].
      apply (step_keeps_shape _ pg pg1 Hstep); [discriminate|exact Hshape].
    + change (exec (Render :: rest) pg)
        with (exec rest (Page (view pg) (Some (view pg)) (pending pg)
                           (started pg) (calls pg))) in Hexec.
      set (pg1 := Page (view pg) (Some (view pg)) (pending pg)
                    (started pg) (calls pg)) in *.
      assert (at_rest pg1 \/ waiting pg1) as Hshape1 by exact Hshape.
      destruct rest as [|j rest'].
      { injection Hexec as <-. exact Hshape1. }
      destruct j as [|m o|].
      * rewrite fresh_after_render_tap in Hfresh. cbn [exec] in Hexec.
        destruct (step TapRefresh pg1) as [pg2|] eqn:Hstep; [|discriminate].
        cbn [length] in Hlen.
        apply (IH rest' pg2 pg'); [lia|assumption|assumption|].
        apply (step_keeps_shape _ pg1 pg2 Hstep); [reflexivity|exact Hshape1].
      * rewrite fresh_after_render in Hfresh by discriminate.
        apply (IH (Settle m o :: rest') pg1 pg'); [lia|assumption..].
      * rewrite fresh_after_render in Hfresh by discriminate.
        apply (IH (Render :: rest') pg1 pg'); [lia|assumption..].
Qed.

End EventLoop.

(** C4, as stated, fails.  After the first load has finished and the empty
    state is on screen, two taps on Refresh before the next re-render both
    call [loadData]: two delays are then pending at once. *)
Lemma double_tap_overlaps_two_delays :
  exists pg,
    PageTemplate.exec
      [PageTemplate.Render;
       PageTemplate.Settle 0 (Async.Fulfilled JS.VUndefined);
       PageTemplate.Render;
       PageTemplate.TapRefresh;
       PageTemplate.TapRefresh]
      (PageTemplate.onLoad JS.VUndefined PageTemplate.mounted) = Some pg /\
    map fst (PageTemplate.pending pg) = [Async.Delay 1000; Async.Delay 1000] /\
    ~ (length (PageTemplate.pending pg) <= 1)%nat.
Proof.
  eexists. split; [reflexivity|]. split; [reflexivity|]. cbn. lia.
Qed.

(** C4, amended.  [loadData] awaits exactly one promise on every run, the
    one-second delay; the other handler of the script, [onItemClick], awaits
    nothing.  On the event loop, after [onLoad], whatever sequence of
    Refresh taps, promise settlements and re-renders the page goes through:
    every pending promise and every promise the page has ever created is
    that delay, one per [loadData] call ([onLoad] and each tap), and the
    only runtime call made is the [console.log] of [onLoad].  The loads are
    not kept apart by the script; at most one delay is pending at a time
    when every tap comes right after a re-render. *)
Theorem page_template_only_awaits_one_delay :
  (forall oracle s,
     Async.awaited (Async.trace (Async.run oracle PageTemplate.loadData s)) =
     [Async.Delay 1000]) /\
  (forall item oracle s,
     Async.awaited
       (Async.trace (Async.run oracle (PageTemplate.onItemClick item) s)) = []) /\
  (forall options inputs pg,
     PageTemplate.exec inputs (PageTemplate.onLoad options PageTemplate.mounted)
       = Some pg ->
     Forall (fun w => fst w = Async.Delay 1000) (PageTemplate.pending pg) /\
     PageTemplate.started pg =
       repeat (Async.Delay 1000) (S (PageTemplate.taps inputs)) /\
     PageTemplate.calls pg =
       [Async.ConsoleLog "Page loaded with options:" options] /\
     (PageTemplate.taps_on_fresh_view inputs = true ->
      (length (PageTemplate.pending pg) <= 1)%nat)).
Proof.
  split; [|split].
  - intros oracle s. rewrite page_loadData_run.
    destruct (oracle (Async.Delay 1000)); reflexivity.
  - intros item oracle s. reflexivity.
  - intros options inputs pg Hexec.
    destruct (onLoad_mounted options) as (Hw & Hs & Hc).
    destruct (exec_keeps_well_formed inputs _ pg Hexec
                (onLoad_well_formed options)) as ((Hpend & _) & Hs' & Hc').
    rewrite Hs in Hs'. rewrite Hc in Hc'.
    split; [|split; [exact Hs'|split; [exact Hc'|]]].
    + eapply Forall_impl; [exact Hpend|]. intros w (Hfst & _). exact Hfst.
    + intros Hfresh.
      destruct (exec_fresh_keeps_shape (length inputs) inputs _ pg
                  (le_n _) Hfresh Hexec (or_intror Hw))
        as [(_ & _ & ->)|(_ & k & -> & _)]; cbn; lia.
Qed.

Lemma page_template_only_awaits_one_delay_witness :
  exists pg,
    PageTemplate.exec
      [PageTemplate.Render;
       PageTemplate.Settle 0 (Async.Fulfilled JS.VUndefined);
       PageTemplate.Render;
       PageTemplate.TapRefresh]
      (PageTemplate.onLoad JS.VUndefined PageTemplate.mounted) = Some pg /\
    (length (PageTemplate.pending pg) <= 1)%nat /\
    PageTemplate.started pg = [Async.Delay 1000; Async.Delay 1000].
Proof.
  eexists. split; [reflexivity|].
  destruct page_template_only_awaits_one_delay as (_ & _ & H).
  destruct (H JS.VUndefined
              [PageTemplate.Render;
               PageTemplate.Settle 0 (Async.Fulfilled JS.VUndefined);
               PageTemplate.Render;
               PageTemplate.TapRefresh] _ eq_refl)
    as (_ & Hstarted & _ & Hlen).
  split; [exact (Hlen eq_refl)|exact Hstarted].
Defined.

(** ** C10: the status lookups *)

Section StatusLookups.
Import JS.

(** Looking a number up in an object literal with the keys [0] and [1]. *)
Lemma lookup_by_number (a b : string) (status : number) :
  ({[ "0" := a; "1" := b ]} : gmap string string) !! number_to_string status =
  match status with
  | Int 0 => Some a
  | Int 1 => Some b
  | _ => None
  end.
Proof.
  destruct status as [z| |[|]]; try reflexivity.
  cbn [number_to_string].
  destruct (decide (z = 0)) as [->|Hz0]; [reflexivity|].
  destruct (decide (z = 1)) as [->|Hz1]; [reflexivity|].
  assert (pretty z <> "0") as H0.
  { intros H. apply Hz0. apply (inj pretty). exact H. }
  assert (pretty z <> "1") as H1.
  { intros H. apply Hz1. apply (inj pretty). exact H. }
  rewrite lookup_insert_ne by congruence.
  rewrite lookup_singleton_ne by congruence.
  destruct z as [|[p|p|]|p]; try reflexivity; congruence.
Qed.

Lemma or_else_by_number (a b fallback : string) (status : number) :
  truthy_string a = true -> truthy_string b = true ->
  or_else (({[ "0" := a; "1" := b ]} : gmap string string)
             !! number_to_string status) fallback =
  match status with
  | Int 0 => a
  | Int 1 => b
  | _ => fallback
  end.
Proof.
  intros Ha Hb. rewrite lookup_by_number.
  destruct status as [[|[p|p|]|p]| |]; cbn; rewrite ?Ha, ?Hb; reflexivity.
Qed.

End StatusLookups.

(** C10.  In the list page and in the detail page alike, [getStatusText]
    and [getStatusType] give a string for every number: "Pending" and
    "warning" for 0, "Completed" and "success" for 1, and the fallbacks
    "Unknown" and "default" for every other number, [NaN] and the infinities
    included. *)
Theorem status_lookups_total :
  forall status : JS.number,
    ListPage.getStatusText status =
      match status with
      | JS.Int 0 => "Pending"
      | JS.Int 1 => "Completed"
      | _ => "Unknown"
      end /\
    ListPage.getStatusType status =
      match status with
      | JS.Int 0 => "warning"
      | JS.Int 1 => "success"
      | _ => "default"
      end /\
    DetailPage.getStatusText status =
      match status with
      | JS.Int 0 => "Pending"
      | JS.Int 1 => "Completed"
      | _ => "Unknown"
      end /\
    DetailPage.getStatusType status =
      match status with
      | JS.Int 0 => "warning"
      | JS.Int 1 => "success"
      | _ => "default"
      end.
Proof.
  intros status.
  unfold ListPage.getStatusText, ListPage.getStatusType,
    DetailPage.getStatusText, DetailPage.getStatusType.
  repeat split; apply or_else_by_number; reflexivity.
Qed.

(** ** C9: the computed list of the list page *)

Section Substrings.
Import JS.

Lemma append_cons (a : ascii) (t post : string) :
  String a t +:+ post = String a (t +:+ post).
Proof. reflexivity. Qed.

Lemma append_nil (post : string) : EmptyString +:+ post = post.
Proof. reflexivity. Qed.

Lemma prefix_app (t s : string) :
  String.prefix t s = true <-> exists post, s = t +:+ post.
Proof.
  revert s. induction t as [|a t IH]; intros s.
  - destruct s; cbn; split; eauto.
  - destruct s as [|b s]; cbn.
    + split; [discriminate|]. intros [post Hpost].
      rewrite append_cons in Hpost. discriminate.
    + destruct (ascii_dec a b) as [->|Hab].
      * rewrite IH. split; intros [post Hpost]; exists post;
          rewrite append_cons in *; congruence.
      * split; [discriminate|]. intros [post Hpost].
        rewrite append_cons in Hpost. congruence.
Qed.

(** [includes] is the substring test. *)
Lemma includes_substring (s t : string) :
  includes s t = true <-> exists pre post, s = pre +:+ t +:+ post.
Proof.
  induction s as [|c s IH]; cbn [includes]; rewrite orb_true_iff, prefix_app.
  - split.
    + intros [[post Hpost]|Hf]; [|discriminate]. exists EmptyString, post. exact Hpost.
    + intros (pre & post & Hs). left. destruct pre; [|discriminate].
      exists post. exact Hs.
  - rewrite IH. split.
    + intros [[post Hpost]|(pre & post & Hs)].
      * exists EmptyString, post. exact Hpost.
      * exists (String c pre), post. rewrite append_cons. congruence.
    + intros (pre & post & Hs). destruct pre as [|c' pre].
      * left. exists post. exact Hs.
      * right. exists pre, post. rewrite append_cons in Hs. congruence.
Qed.

Lemma strict_eq_true (x y : number) : strict_eq x y = true -> x = y.
Proof.
  destruct x as [a| |a], y as [b| |b]; cbn; try discriminate.
  - intros H. apply Z.eqb_eq in H. congruence.
  - intros H. apply Bool.eqb_prop in H. congruence.
Qed.

Lemma truthy_string_true (s : string) : truthy_string s = true <-> s <> EmptyString.
Proof. destruct s; cbn; split; congruence. Qed.

Lemma filter_sublist {A} (f : A -> bool) (l : list A) :
  sublist (List.filter f l) l.
Proof.
  induction l as [|x l IH]; cbn.
  - constructor.
  - destruct (f x); constructor; exact IH.
Qed.

End Substrings.

Section ListPageFilter.
Import JS ListPage.
Variable toLowerCase : string -> string.

Lemma filteredItems_sublist (s : state) :
  sublist (filteredItems toLowerCase s) (items s).
Proof.
  unfold filteredItems.
  destruct (gt_zero (currentTab s)), (truthy_string (searchText s)).
  - etransitivity; apply filter_sublist.
  - apply filter_sublist.
  - apply filter_sublist.
  - reflexivity.
Qed.

Lemma filteredItems_elem (s : state) (item : Item) :
  item ∈ filteredItems toLowerCase s ->
  (gt_zero (currentTab s) = true -> tab_matches s item = true) /\
  (truthy_string (searchText s) = true ->
   search_matches toLowerCase s item = true).
Proof.
  unfold filteredItems. intros Hin. apply list_elem_of_In in Hin.
  destruct (gt_zero (currentTab s)), (truthy_string (searchText s));
    repeat match goal with
           | H : In _ (List.filter _ _) |- _ =>
               apply filter_In in H; destruct H
           end;
    split; intros; congruence.
Qed.

End ListPageFilter.

(** C9.  Whatever the run-time's [toLowerCase] is: [filteredItems] is a
    sublist of [items] (same elements, same order, some left out); when
    [currentTab > 0] each of its elements has [status] equal to
    [currentTab - 1]; when [searchText] is not empty, the lower-cased title
    of each of its elements contains the lower-cased [searchText]; and with
    [currentTab = 0] and an empty [searchText] it is [items] itself. *)
Theorem filteredItems_filters :
  forall (toLowerCase : string -> string) (s : ListPage.state),
    sublist (ListPage.filteredItems toLowerCase s) (ListPage.items s) /\
    (forall item,
       item ∈ ListPage.filteredItems toLowerCase s ->
       (JS.gt_zero (ListPage.currentTab s) = true ->
        ListPage.status item = JS.minus_one (ListPage.currentTab s)) /\
       (ListPage.searchText s <> EmptyString ->
        exists pre post,
          toLowerCase (ListPage.title item) =
          pre +:+ toLowerCase (ListPage.searchText s) +:+ post)) /\
    (ListPage.currentTab s = JS.Int 0 ->
     ListPage.searchText s = EmptyString ->
     ListPage.filteredItems toLowerCase s = ListPage.items s).
Proof.
  intros toLowerCase s. split; [|split].
  - apply filteredItems_sublist.
  - intros item Hin.
    destruct (filteredItems_elem toLowerCase s item Hin) as (Htab & Hsearch).
    split.
    + intros Hgt. apply strict_eq_true. apply Htab. exact Hgt.
    + intros Hne. apply includes_substring. apply Hsearch.
      apply truthy_string_true. exact Hne.
  - intros Htab Hsearch. unfold ListPage.filteredItems.
    rewrite Htab, Hsearch. reflexivity.
Qed.

Lemma filteredItems_filters_witness :
  let pie := ListPage.Build_Item (JS.Int 1) "Apple Pie" (JS.Int 0) "2024-01-01" "food" in
  let banana := ListPage.Build_Item (JS.Int 2) "Banana" (JS.Int 1) "2024-01-02" "food" in
  let pine := ListPage.Build_Item (JS.Int 3) "Pineapple" (JS.Int 0) "2024-01-03" "food" in
  let searching := ListPage.State "APP" (JS.Int 1) false [pie; banana; pine] in
  let showing_all := ListPage.State EmptyString (JS.Int 0) false [pie; banana; pine] in
  ListPage.filteredItems JS.ascii_toLowerCase searching = [pie; pine] /\
  ListPage.status pine = JS.Int 0 /\
  (exists pre post, JS.ascii_toLowerCase "Pineapple" = pre +:+ "app" +:+ post) /\
  ListPage.filteredItems JS.ascii_toLowerCase showing_all = [pie; banana; pine].
Proof.
  intros pie banana pine searching showing_all.
  destruct (filteredItems_filters JS.ascii_toLowerCase searching)
    as (_ & Helem & _).
  destruct (filteredItems_filters JS.ascii_toLowerCase showing_all)
    as (_ & _ & Hall).
  assert (pine ∈ ListPage.filteredItems JS.ascii_toLowerCase searching) as Hin.
  { vm_compute. apply list_elem_of_further, list_elem_of_here. }
  destruct (Helem pine Hin) as (Hstatus & Htitle).
  split; [reflexivity|]. split; [|split].
  - apply Hstatus. reflexivity.
  - apply Htitle. discriminate.
  - apply Hall; reflexivity.
Defined.

(** ** C3 and C8: the theme stores *)

Section ThemeStoreFacts.
Import JS Prototype ThemeStore.

Lemma get_own {A} (o : gmap string A) (k : string) (a : A) :
  o !! k = Some a -> get o k = Own a.
Proof. intros H. unfold get. rewrite H. reflexivity. Qed.

Lemma get_missing_not_own {A} (o : gmap string A) (k : string) :
  get o k = Missing -> o !! k = None.
Proof. unfold get. destruct (o !! k); [discriminate|reflexivity]. Qed.

Lemma setTheme_found (themeName : string) (w : world) :
  found (get (themes (store w)) themeName) = true ->
  setTheme themeName w =
  World (State themeName (themes (store w)))
    (<["theme" := themeName]> (storage w)) (console w).
Proof. intros H. unfold setTheme. rewrite H. reflexivity. Qed.

Lemma setTheme_known (themeName : string) (t : Theme) (w : world) :
  themes (store w) !! themeName = Some t ->
  setTheme themeName w =
  World (State themeName (themes (store w)))
    (<["theme" := themeName]> (storage w)) (console w).
Proof.
  intros H. apply setTheme_found. rewrite (get_own _ _ _ H). reflexivity.
Qed.

Lemma setTheme_missing (themeName : string) (w : world) :
  get (themes (store w)) themeName = Missing ->
  setTheme themeName w =
  World (store w) (storage w)
    (console w ++ ["Theme " +:+ quote +:+ themeName +:+ quote +:+ " not found"]).
Proof. intros H. unfold setTheme. rewrite H. reflexivity. Qed.

Lemma loadSavedTheme_cases (w : world) :
  (loadSavedTheme w = w) \/
  (getStorageSync "theme" w <> EmptyString /\
   found (get (themes (store w)) (getStorageSync "theme" w)) = true /\
   loadSavedTheme w =
   World (State (getStorageSync "theme" w) (themes (store w)))
     (storage w) (console w)).
Proof.
  unfold loadSavedTheme.
  destruct (truthy_string (getStorageSync "theme" w)) eqn:Htruthy; cbn; [|auto].
  destruct (found (get (themes (store w)) (getStorageSync "theme" w)))
    eqn:Hfound; [|auto].
  right. split; [|auto]. intros Hempty. rewrite Hempty in Htruthy. discriminate.
Qed.

Lemma perform_keeps_themes (a : action) (w : world) :
  themes (store (perform a w)) = themes (store w).
Proof.
  destruct a as [themeName|]; cbn.
  - unfold setTheme.
    destruct (negb (found (get (themes (store w)) themeName))); reflexivity.
  - destruct (loadSavedTheme_cases w) as [->|(_ & _ & ->)]; reflexivity.
Qed.

(** What the guards do keep: under the selected name [themes] always has
    a property, own or inherited. *)
Lemma perform_keeps_selected_found (a : action) (w : world) :
  selected_found w -> selected_found (perform a w).
Proof.
  unfold selected_found, theme. intros Hw. destruct a as [themeName|]; cbn.
  - unfold setTheme.
    destruct (found (get (themes (store w)) themeName)) eqn:Hfound; cbn;
      assumption.
  - destruct (loadSavedTheme_cases w) as [->|(_ & Hfound & ->)]; assumption.
Qed.

Lemma perform_all_keeps (actions : list action) : forall w : world,
  selected_found w ->
  selected_found (perform_all actions w) /\
  themes (store (perform_all actions w)) = themes (store w).
Proof.
  induction actions as [|a actions IH]; intros w Hw.
  - auto.
  - change (perform_all (a :: actions) w)
      with (perform_all actions (perform a w)).
    destruct (IH (perform a w) (perform_keeps_selected_found a w Hw))
      as (Hsel & Hthemes).
    split; [exact Hsel|]. rewrite Hthemes. apply perform_keeps_themes.
Qed.

End ThemeStoreFacts.

(** C3, as stated, fails.  [setTheme] called with a name that is not a key
    of [themes] (the guide itself calls it with 'wechat') selects nothing and
    stores nothing: [currentTheme] stays 'default' and the storage has no
    'theme' entry. *)
Lemma setTheme_unknown_name_not_selected :
  let w := ThemeStore.setTheme "wechat" (ThemeStore.boot ∅) in
  ThemeStore.currentTheme (ThemeStore.store w) = "default" /\
  ThemeStore.storage w !! "theme" = None /\
  ~ (forall themeName w0,
       ThemeStore.currentTheme (ThemeStore.store (ThemeStore.setTheme themeName w0))
         = themeName /\
       ThemeStore.storage (ThemeStore.setTheme themeName w0) !! "theme"
         = Some themeName).
Proof.
  split; [reflexivity|]. split; [reflexivity|].
  intros H. destruct (H "wechat" (ThemeStore.boot ∅)) as (Hcur & _).
  vm_compute in Hcur. discriminate.
Qed.

(** C3, amended.  The getter of the theme store yields what [themes] holds
    under [currentTheme] (and the getter of the short store in [SKILL.md]
    what its two-theme record holds).  [setTheme], when the given name is a
    key of [themes], sets [currentTheme] to that name and stores the name
    under 'theme'; when [themes] has no property at all under the name, it
    changes neither [currentTheme] nor the storage. *)
Theorem theme_store_selects_known_themes :
  (forall s, ThemeStore.theme s =
             Prototype.get (ThemeStore.themes s) (ThemeStore.currentTheme s)) /\
  (forall s, SkillThemeStore.themeColors s =
             Prototype.get
               ({[ "default" := SkillThemeStore.Build_colors "#1890ff";
                   "dark" := SkillThemeStore.Build_colors "#0050b3" ]}
                  : gmap string SkillThemeStore.colors)
               (SkillThemeStore.currentTheme s)) /\
  (forall themeName t w,
     ThemeStore.themes (ThemeStore.store w) !! themeName = Some t ->
     let w' := ThemeStore.setTheme themeName w in
     ThemeStore.currentTheme (ThemeStore.store w') = themeName /\
     ThemeStore.theme (ThemeStore.store w') = Prototype.Own t /\
     ThemeStore.storage w' !! "theme" = Some themeName /\
     ThemeStore.getStorageSync "theme" w' = themeName) /\
  (forall themeName w,
     Prototype.get (ThemeStore.themes (ThemeStore.store w)) themeName
       = Prototype.Missing ->
     ThemeStore.store (ThemeStore.setTheme themeName w) = ThemeStore.store w /\
     ThemeStore.storage (ThemeStore.setTheme themeName w) = ThemeStore.storage w).
Proof.
  split; [reflexivity|]. split; [reflexivity|]. split.
  - intros themeName t w Hknown w'. subst w'.
    rewrite (setTheme_known themeName t w Hknown).
    unfold ThemeStore.theme, ThemeStore.getStorageSync. cbn.
    rewrite lookup_insert_eq, (get_own _ _ _ Hknown). auto.
  - intros themeName w Hmissing.
    rewrite (setTheme_missing themeName w Hmissing). auto.
Qed.

Lemma theme_store_selects_known_themes_witness :
  let w := ThemeStore.setTheme "dark" (ThemeStore.boot ∅) in
  ThemeStore.theme (ThemeStore.store w) = Prototype.Own ThemeStore.dark_theme /\
  ThemeStore.storage w !! "theme" = Some "dark" /\
  ThemeStore.storage (ThemeStore.setTheme "web" w) = ThemeStore.storage w.
Proof.
  intros w.
  destruct theme_store_selects_known_themes as (_ & _ & Hknown & Hmissing).
  destruct (Hknown "dark" ThemeStore.dark_theme (ThemeStore.boot ∅))
    as (_ & Htheme & Hstored & _); [reflexivity|].
  destruct (Hmissing "web" w) as (_ & Hsame); [reflexivity|].
  split; [exact Htheme|]. split; [exact Hstored|exact Hsame].
Defined.

(** C8.  The guards of [setTheme] and [loadSavedTheme] test
    [this.themes[name]], which also finds the members [themes] inherits
    from [Object.prototype].  So [setTheme('toString')] on a fresh store,
    although 'toString' is not a key of [themes], logs nothing, sets
    [currentTheme] to 'toString' and stores it, and the [theme] getter then
    yields the inherited function, not a theme; and [loadSavedTheme] adopts
    a saved 'hasOwnProperty' in the same way. *)
Theorem theme_store_adopts_inherited_names :
  let w := ThemeStore.setTheme "toString" (ThemeStore.boot ∅) in
  let restarted :=
    ThemeStore.loadSavedTheme (ThemeStore.boot {[ "theme" := "hasOwnProperty" ]}) in
  ThemeStore.themes ThemeStore.initial !! "toString" = None /\
  ThemeStore.currentTheme (ThemeStore.store w) = "toString" /\
  ThemeStore.storage w !! "theme" = Some "toString" /\
  ThemeStore.console w = [] /\
  ThemeStore.theme (ThemeStore.store w) = Prototype.Inherited /\
  ThemeStore.themes ThemeStore.initial !! "hasOwnProperty" = None /\
  ThemeStore.currentTheme (ThemeStore.store restarted) = "hasOwnProperty" /\
  ThemeStore.theme (ThemeStore.store restarted) = Prototype.Inherited.
Proof.
  cbn zeta. repeat split; vm_compute; reflexivity.
Qed.

(** ** C5: the [Item] interface *)

Section ItemInterface.
Import JS Interface.

Lemma Item_extras_ok (o : object) : extras_ok Item o = true.
Proof.
  unfold extras_ok. apply forallb_forall. intros [k v] _. cbn.
  apply orb_true_r.
Qed.

Lemma Item_conforms (o : object) :
  conforms Item o = true <->
  (exists n, o !! "id" = Some (VNum n)) /\
  (exists t, o !! "title" = Some (VStr t)) /\
  (o !! "description" = None \/
   o !! "description" = Some VUndefined \/
   exists d, o !! "description" = Some (VStr d)).
Proof.
  unfold conforms. rewrite Item_extras_ok, andb_true_r.
  cbn [Item members forallb]. unfold member_ok.
  cbn [member_name optional member_type].
  rewrite !andb_true_iff. split.
  - intros (Hid & Htitle & Hdesc & _).
    repeat split.
    + destruct (o !! "id") as [[]|]; cbn in Hid; try discriminate; eauto.
    + destruct (o !! "title") as [[]|]; cbn in Htitle; try discriminate; eauto.
    + destruct (o !! "description") as [[]|]; cbn in Hdesc; try discriminate; eauto.
  - intros ((n & ->) & (t & ->) & [->|[->|(d & ->)]]); repeat split.
Qed.

End ItemInterface.

(** C5.  The [Item] interface of the page template declares three members:
    [id], required, a number; [title], required, a string; [description],
    optional, a string.  No other member is required: an object conforms to
    the interface exactly when it has a number [id], a string [title] and a
    [description] that is missing, undefined or a string (any further
    property is admitted by the index signature). *)
Theorem Item_interface_requires_id_and_title :
  Interface.members Interface.Item =
    [ Interface.Member "id" false Interface.TNumber;
      Interface.Member "title" false Interface.TString;
      Interface.Member "description" true Interface.TString ] /\
  Interface.required Interface.Item =
    [ Interface.Member "id" false Interface.TNumber;
      Interface.Member "title" false Interface.TString ] /\
  (forall o : JS.object,
     Interface.conforms Interface.Item o = true <->
     (exists n, o !! "id" = Some (JS.VNum n)) /\
     (exists t, o !! "title" = Some (JS.VStr t)) /\
     (o !! "description" = None \/
      o !! "description" = Some JS.VUndefined \/
      exists d, o !! "description" = Some (JS.VStr d))).
Proof.
  split; [reflexivity|]. split; [reflexivity|]. exact Item_conforms.
Qed.

Lemma Item_interface_requires_id_and_title_witness :
  Interface.conforms Interface.Item
    {[ "id" := JS.VNum (JS.Int 7); "title" := JS.VStr "Parcel" ]} = true /\
  Interface.conforms Interface.Item {[ "title" := JS.VStr "Parcel" ]} <> true.
Proof.
  destruct Item_interface_requires_id_and_title as (_ & _ & H).
  split.
  - apply H. split; [|split].
    + exists (JS.Int 7). reflexivity.
    + exists "Parcel". reflexivity.
    + left. reflexivity.
  - intros Hc. apply H in Hc. destruct Hc as ((n & Hid) & _).
    vm_compute in Hid. discriminate.
Defined.

(** ** C6: page registration *)

Section PageRegistration.
Import PagesJson.

Lemma only_path_and_title_shape (entry : json) :
  only_path_and_title entry = true ->
  exists path title,
    entry = JObject [ ("path", JString path);
                      ("style", JObject [ ("navigationBarTitleText", JString title) ]) ].
Proof.
  unfold only_path_and_title, has_path_and_title.
  rewrite !andb_true_iff. intros ((Hhas & Hkeys) & Hstyle).
  apply bool_decide_eq_true in Hkeys.
  destruct entry as [| | |fields]; try discriminate.
  destruct fields as [|[k1 v1] [|[k2 v2] [|]]]; try discriminate.
  cbn in Hkeys. injection Hkeys as -> ->.
  cbn in Hhas, Hstyle.
  destruct v2 as [| | |style]; try discriminate.
  apply bool_decide_eq_true in Hstyle.
  destruct style as [|[k t] [|]]; try discriminate.
  cbn in Hstyle. injection Hstyle as ->.
  cbn in Hhas. apply andb_true_iff in Hhas as (Hpath & Htitle).
  destruct v1; try discriminate. destruct t; try discriminate.
  eauto.
Qed.

End PageRegistration.

(** C6.  The [pages.json] blocks of the skill documents hold two page
    registrations (one in [SKILL.md], one in [references/ui-libraries.md]).
    Each is an object with exactly the keys "path", a string, and "style",
    an object with exactly the key "navigationBarTitleText", a string. *)
Theorem page_registration_is_path_and_title :
  length (concat (map PagesJson.registrations PagesJson.examples)) = 2%nat /\
  forall entry,
    entry ∈ concat (map PagesJson.registrations PagesJson.examples) ->
    PagesJson.only_path_and_title entry = true /\
    exists path title,
      entry =
      PagesJson.JObject
        [ ("path", PagesJson.JString path);
          ("style",
           PagesJson.JObject
             [ ("navigationBarTitleText", PagesJson.JString title) ]) ].
Proof.
  split; [reflexivity|].
  intros entry Hin.
  assert (PagesJson.only_path_and_title entry = true) as Hshape.
  { cbn in Hin. rewrite !elem_of_cons in Hin.
    destruct Hin as [->|[->|Hin]]; [reflexivity|reflexivity|inversion Hin]. }
  split; [exact Hshape|]. apply only_path_and_title_shape. exact Hshape.
Qed.

Lemma page_registration_is_path_and_title_witness :
  PagesJson.only_path_and_title
    (PagesJson.JObject
       [ ("path", PagesJson.JString "pages/newpage/index");
         ("style",
          PagesJson.JObject
            [ ("navigationBarTitleText", PagesJson.JString "Page Title") ]) ])
  = true.
Proof.
  destruct page_registration_is_path_and_title as (_ & H).
  apply H. vm_compute. apply list_elem_of_here.
Defined.

(** ** C7: design tokens *)

(** C7.  The token names of the recommended [theme.scss] are pairwise
    distinct, and each of the four categories (color, spacing, typography,
    radius) has tokens.  The style block of the page template refers to the
    variables listed below, and every one of them is a token of
    [theme.scss]. *)
Theorem template_styles_use_defined_tokens :
  NoDup (map Scss.token_name Scss.theme_scss) /\
  (forall c : Scss.category, c ∈ Scss.categories) /\
  Scss.sheet_vars Scss.page_template_style =
    [ "color-bg-page"; "color-bg-card"; "spacing-md"; "spacing-md";
      "font-size-xl"; "color-text-primary"; "spacing-xs";
      "font-size-sm"; "color-text-secondary"; "spacing-md"; "spacing-xl" ] /\
  Forall (fun v => v ∈ Scss.token_names)
    (Scss.sheet_vars Scss.page_template_style).
Proof.
  split; [|split; [|split]].
  - apply (bool_decide_unpack _). vm_compute. exact I.
  - intros c. apply (bool_decide_unpack _). destruct c; vm_compute; exact I.
  - reflexivity.
  - apply (bool_decide_unpack _). vm_compute. exact I.
Qed.

(** * Further properties of the templates *)

(** ** The list page *)

Section ListPageMore.
Import JS ListPage ListPageView.

Lemma append_assoc (a b c : string) : (a +:+ b) +:+ c = a +:+ b +:+ c.
Proof.
  induction a as [|x a IH]; [reflexivity|].
  rewrite !append_cons, IH. reflexivity.
Qed.

Lemma includes_trans (a b c : string) :
  includes a b = true -> includes b c = true -> includes a c = true.
Proof.
  rewrite !includes_substring.
  intros (p1 & q1 & Ha) (p2 & q2 & Hb).
  exists (p1 +:+ p2), (q2 +:+ q1).
  rewrite Ha, Hb, !append_assoc. reflexivity.
Qed.

Lemma filter_sublist_mono {A} (f g : A -> bool) (l : list A) :
  (forall x, f x = true -> g x = true) ->
  sublist (List.filter f l) (List.filter g l).
Proof.
  intros Hfg. induction l as [|x l IH]; cbn.
  - constructor.
  - destruct (f x) eqn:Hf.
    + rewrite (Hfg x Hf). constructor. exact IH.
    + destruct (g x); [constructor|]; exact IH.
Qed.

Lemma filteredItems_unfold (toLowerCase : string -> string) (s : state) :
  filteredItems toLowerCase s =
  let by_tab :=
    if gt_zero (currentTab s) then List.filter (tab_matches s) (items s)
    else items s in
  if truthy_string (searchText s)
  then List.filter (search_matches toLowerCase s) by_tab
  else by_tab.
Proof. reflexivity. Qed.

End ListPageMore.

(** X1.  [filteredItems] holds exactly the items that pass the active
    filters: an item is in it if and only if it is in [items], its status
    is [currentTab - 1] when [currentTab > 0], and its lower-cased title
    contains the lower-cased search text when that text is not empty.  No
    matching item is dropped. *)
Theorem filteredItems_exactly_matching :
  forall (toLowerCase : string -> string) (s : ListPage.state)
         (item : ListPage.Item),
    item ∈ ListPage.filteredItems toLowerCase s <->
    item ∈ ListPage.items s /\
    (JS.gt_zero (ListPage.currentTab s) = true ->
     JS.strict_eq (ListPage.status item)
       (JS.minus_one (ListPage.currentTab s)) = true) /\
    (ListPage.searchText s <> EmptyString ->
     JS.includes (toLowerCase (ListPage.title item))
       (toLowerCase (ListPage.searchText s)) = true).
Proof.
  intros toLowerCase s item. rewrite filteredItems_unfold. cbn zeta.
  rewrite <- truthy_string_true.
  unfold ListPage.search_matches, ListPage.tab_matches.
  destruct (JS.gt_zero (ListPage.currentTab s)),
           (JS.truthy_string (ListPage.searchText s));
    rewrite ?list_elem_of_In, ?filter_In; intuition congruence.
Qed.

Lemma filteredItems_exactly_matching_witness :
  let pie := ListPage.Build_Item (JS.Int 1) "Apple Pie" (JS.Int 0) "2024-01-01" "food" in
  let banana := ListPage.Build_Item (JS.Int 2) "Banana" (JS.Int 1) "2024-01-02" "food" in
  pie ∈ ListPage.filteredItems JS.ascii_toLowerCase
          (ListPage.State "PIE" (JS.Int 1) false [banana; pie]).
Proof.
  intros pie banana.
  apply (filteredItems_exactly_matching JS.ascii_toLowerCase).
  split; [|split].
  - cbn. apply list_elem_of_further, list_elem_of_here.
  - reflexivity.
  - reflexivity.
Defined.

(** X2.  The tabs and the status texts agree: under the tab with index 1 or
    2, every item shown has as its status text the name of that tab
    ("Pending", "Completed"). *)
Theorem tab_name_is_status_text :
  forall (toLowerCase : string -> string) (s : ListPage.state)
         (n : nat) (name : string) (item : ListPage.Item),
    n <> 0%nat ->
    ListPage.statusTabs !! n = Some name ->
    ListPage.currentTab s = JS.Int (Z.of_nat n) ->
    item ∈ ListPage.filteredItems toLowerCase s ->
    ListPage.getStatusText (ListPage.status item) = name.
Proof.
  intros toLowerCase s n name item Hn Hname Htab Hin.
  destruct (filteredItems_elem toLowerCase s item Hin) as (Hstatus & _).
  unfold ListPage.tab_matches in Hstatus. rewrite Htab in Hstatus.
  destruct n as [|[|[|n]]]; [congruence| | |discriminate].
  - injection Hname as <-.
    rewrite (strict_eq_true _ _ (Hstatus eq_refl)). reflexivity.
  - injection Hname as <-.
    rewrite (strict_eq_true _ _ (Hstatus eq_refl)). reflexivity.
Qed.

Lemma tab_name_is_status_text_witness :
  ListPage.getStatusText (JS.Int 1) = "Completed".
Proof.
  apply (tab_name_is_status_text JS.ascii_toLowerCase
           (ListPage.State EmptyString (JS.Int 2) false
              [ListPage.Build_Item (JS.Int 5) "Order" (JS.Int 1) "2024-02-02" "shop"])
           2 "Completed"
           (ListPage.Build_Item (JS.Int 5) "Order" (JS.Int 1) "2024-02-02" "shop")).
  - discriminate.
  - reflexivity.
  - reflexivity.
  - cbn. apply list_elem_of_here.
Defined.

(** X3.  Typing on never adds results, as long as the lower-cased longer
    search text still contains the lower-cased shorter one: then the list
    for the search text extended by further characters is a sublist of the
    list for the text itself. *)
Theorem longer_search_narrows :
  forall (toLowerCase : string -> string) (s : ListPage.state) (extra : string),
    JS.includes (toLowerCase (ListPage.searchText s +:+ extra))
      (toLowerCase (ListPage.searchText s)) = true ->
    sublist
      (ListPage.filteredItems toLowerCase
         (ListPage.State (ListPage.searchText s +:+ extra)
            (ListPage.currentTab s) (ListPage.loading s) (ListPage.items s)))
      (ListPage.filteredItems toLowerCase s).
Proof.
  intros toLowerCase s extra Hcontains. rewrite !filteredItems_unfold. cbn zeta.
  cbn [ListPage.searchText ListPage.currentTab ListPage.items].
  set (by_tab := if JS.gt_zero (ListPage.currentTab s)
                 then List.filter (ListPage.tab_matches s) (ListPage.items s)
                 else ListPage.items s).
  replace (if JS.gt_zero (ListPage.currentTab s)
           then List.filter
                  (ListPage.tab_matches
                     (ListPage.State (ListPage.searchText s +:+ extra)
                        (ListPage.currentTab s) (ListPage.loading s)
                        (ListPage.items s)))
                  (ListPage.items s)
           else ListPage.items s) with by_tab by reflexivity.
  destruct (ListPage.searchText s) as [|c rest] eqn:Hsearch.
  - cbn [JS.truthy_string]. rewrite append_nil.
    destruct (JS.truthy_string extra); [apply filter_sublist|reflexivity].
  - rewrite append_cons. cbn [JS.truthy_string].
    apply filter_sublist_mono. intros item.
    unfold ListPage.search_matches. cbn [ListPage.searchText].
    rewrite Hsearch, <- append_cons. intros Hlonger.
    exact (includes_trans _ _ _ Hlonger Hcontains).
Qed.

Lemma longer_search_narrows_witness :
  let pie := ListPage.Build_Item (JS.Int 1) "Apple Pie" (JS.Int 0) "2024-01-01" "food" in
  let pine := ListPage.Build_Item (JS.Int 3) "Pineapple" (JS.Int 0) "2024-01-03" "food" in
  sublist
    (ListPage.filteredItems JS.ascii_toLowerCase
       (ListPage.State "Apple P" (JS.Int 0) false [pie; pine]))
    (ListPage.filteredItems JS.ascii_toLowerCase
       (ListPage.State "Apple" (JS.Int 0) false [pie; pine])).
Proof.
  intros pie pine.
  apply (longer_search_narrows JS.ascii_toLowerCase
           (ListPage.State "Apple" (JS.Int 0) false [pie; pine]) " P").
  reflexivity.
Defined.

(** X4.  After [loadData] of the list page the list is empty, so the page
    shows its empty state and not the spinner, whatever tab and search text
    are set and whatever was listed before. *)
Theorem list_page_shows_empty_after_load :
  forall (toLowerCase : string -> string) (oracle : Async.promise -> Async.outcome)
         (s : ListPage.state),
    let s' := Async.refs (Async.run oracle ListPage.loadData s) in
    ListPage.filteredItems toLowerCase s' = [] /\
    ListPageView.empty_shown toLowerCase s' = true /\
    ListPageView.spinner_shown s' = false /\
    ListPage.searchText s' = ListPage.searchText s /\
    ListPage.currentTab s' = ListPage.currentTab s.
Proof.
  intros toLowerCase oracle s s'. subst s'. rewrite list_loadData_run.
  cbn [Async.refs].
  assert (ListPage.filteredItems toLowerCase
            (ListPage.State (ListPage.searchText s) (ListPage.currentTab s)
               false []) = []) as Hnone.
  { rewrite filteredItems_unfold. cbn.
    destruct (JS.gt_zero (ListPage.currentTab s)),
             (JS.truthy_string (ListPage.searchText s)); reflexivity. }
  unfold ListPageView.empty_shown. rewrite Hnone. repeat split.
Qed.

(** ** Navigation to the detail page *)

(** X5.  The detail URL identifies the item: two items with integer ids get
    the same URL from [viewDetail] only if their ids are equal.  The page
    template's [onItemClick] builds the same URL from the object's [id]
    property, and for an object without [id] the URL ends in
    "id=undefined". *)
Theorem detail_url_identifies_item :
  (forall (a b : ListPage.Item) (x y : Z),
     ListPage.id a = JS.Int x -> ListPage.id b = JS.Int y ->
     ListPageView.detail_url a = ListPageView.detail_url b -> x = y) /\
  (forall (item : ListPage.Item) (o : JS.object),
     o !! "id" = Some (JS.VNum (ListPage.id item)) ->
     PageTemplate.onItemClick o =
     Async.call (Async.NavigateTo (ListPageView.detail_url item))) /\
  (forall o : JS.object,
     o !! "id" = None ->
     PageTemplate.onItemClick o =
     Async.call (Async.NavigateTo "/pages/detail/index?id=undefined")).
Proof.
  split; [|split].
  - intros a b x y Ha Hb Hurl. unfold ListPageView.detail_url in Hurl.
    rewrite Ha, Hb in Hurl. cbn [JS.to_string JS.number_to_string] in Hurl.
    apply (inj (String.app _)) in Hurl. apply (inj pretty) in Hurl. exact Hurl.
  - intros item o Hid.
    unfold PageTemplate.onItemClick, PageTemplate.prop,
      ListPageView.detail_url.
    rewrite Hid. reflexivity.
  - intros o Hid. unfold PageTemplate.onItemClick, PageTemplate.prop.
    rewrite Hid. reflexivity.
Qed.

Lemma detail_url_identifies_item_witness :
  ListPageView.detail_url
    (ListPage.Build_Item (JS.Int 42) "Parcel" (JS.Int 0) "2024-03-01" "post")
  = "/pages/detail/index?id=42" /\
  PageTemplate.onItemClick {[ "id" := JS.VNum (JS.Int 42) ]} =
  Async.call
    (Async.NavigateTo
       (ListPageView.detail_url
          (ListPage.Build_Item (JS.Int 42) "Parcel" (JS.Int 0) "2024-03-01" "post"))) /\
  PageTemplate.onItemClick {[ "title" := JS.VStr "Parcel" ]} =
  Async.call (Async.NavigateTo "/pages/detail/index?id=undefined").
Proof.
  destruct detail_url_identifies_item as (_ & Hsame & Hmissing).
  split; [reflexivity|]. split.
  - apply Hsame. reflexivity.
  - apply Hmissing. reflexivity.
Defined.

(** ** The page template on the event loop, continued *)

Section EventLoopMore.
Import JS Async PageTemplate.

Lemma exec_app (inputs more : list input) : forall pg : page,
  exec (inputs ++ more) pg =
  match exec inputs pg with
  | Some pg' => exec more pg'
  | None => None
  end.
Proof.
  induction inputs as [|i inputs IH]; intros pg; cbn.
  - reflexivity.
  - destruct (step i pg); [apply IH|reflexivity].
Qed.

Lemma loaded_page_well_formed (options : value) (inputs : list input) (pg : page) :
  exec inputs (onLoad options mounted) = Some pg -> well_formed pg.
Proof.
  intros Hexec.
  apply (exec_keeps_well_formed inputs _ pg Hexec (onLoad_well_formed options)).
Qed.

(** Settling the pending delays one after the other empties the queue and
    leaves the spinner off; screen, promises created and calls stay. *)
Lemma settle_all_reaches_rest (n : nat) : forall pg : page,
  well_formed pg ->
  length (pending pg) = n ->
  exists pg',
    exec (repeat (Settle 0 (Fulfilled VUndefined)) n) pg = Some pg' /\
    well_formed pg' /\
    pending pg' = [] /\
    loading (view pg') = false /\
    screen pg' = screen pg.
Proof.
  induction n as [|n IH]; intros pg Hwf Hlen.
  - exists pg. split; [reflexivity|]. split; [exact Hwf|].
    destruct (pending pg) as [|w rest] eqn:Hpend; [|discriminate].
    split; [reflexivity|]. split; [|reflexivity].
    destruct Hwf as (_ & _ & _ & Hload). rewrite Hpend in Hload.
    destruct (loading (view pg)); [|reflexivity].
    exfalso. apply (Hload eq_refl). reflexivity.
  - destruct (pending pg) as [|[p k] rest] eqn:Hpend; [discriminate|].
    destruct Hwf as (Hdelays & Hclean & Hscreen & Hload).
    assert (Hwf : well_formed pg) by (split; [|split; [|split]]; assumption).
    rewrite Hpend in Hdelays.
    apply Forall_cons in Hdelays as ((Hp & Hk) & Hrest).
    cbn [fst snd] in Hp, Hk. subst p.
    assert (exists pg1,
              step (Settle 0 (Fulfilled VUndefined)) pg = Some pg1 /\
              pending pg1 = rest /\ screen pg1 = screen pg)
      as (pg1 & Hstep & Hpend1 & Hscreen1).
    { cbn [step]. rewrite Hpend. cbn. unfold spawn. cbn [view]. rewrite Hk.
      eexists. split; [reflexivity|]. split; reflexivity. }
    destruct (step_keeps_well_formed _ pg pg1 Hstep Hwf) as (Hwf1 & _).
    destruct (IH pg1 Hwf1) as (pg' & Hexec & Hwf' & Hnone & Hoff & Hscreen').
    { rewrite Hpend1. cbn in Hlen. lia. }
    exists pg'. cbn [repeat exec]. rewrite Hstep.
    split; [exact Hexec|]. split; [exact Hwf'|]. split; [exact Hnone|].
    split; [exact Hoff|]. congruence.
Qed.

End EventLoopMore.

(** X6.  In every state the page template reaches after [onLoad], through
    any taps, settlements and re-renders: the list is empty and [error] is
    [null] (the [catch] block never runs), in the refs and on screen; what
    is on screen is exactly one of the spinner and the empty state with its
    Refresh button; every pending promise is the one-second delay; and
    whenever [loading] is [true] a delay is pending. *)
Theorem page_shows_spinner_or_empty_state :
  forall options inputs pg,
    PageTemplate.exec inputs (PageTemplate.onLoad options PageTemplate.mounted)
      = Some pg ->
    PageTemplate.items (PageTemplate.view pg) = [] /\
    PageTemplate.error (PageTemplate.view pg) = None /\
    (forall s,
       PageTemplate.screen pg = Some s ->
       PageTemplate.items s = [] /\
       PageTemplate.error s = None /\
       xorb (PageTemplate.spinner_shown s) (PageTemplate.refresh_shown s)
         = true) /\
    Forall (fun w => fst w = Async.Delay 1000) (PageTemplate.pending pg) /\
    (PageTemplate.spinner_shown (PageTemplate.view pg) = true ->
     PageTemplate.pending pg <> []).
Proof.
  intros options inputs pg Hexec.
  destruct (loaded_page_well_formed options inputs pg Hexec)
    as (Hdelays & (Hitems & Herror) & Hscreen & Hload).
  split; [exact Hitems|]. split; [exact Herror|]. split; [|split].
  - intros s Hs. destruct (Hscreen s Hs) as (Hsi & Hse).
    split; [exact Hsi|]. split; [exact Hse|].
    unfold PageTemplate.spinner_shown, PageTemplate.refresh_shown.
    rewrite Hsi. destruct (PageTemplate.loading s); reflexivity.
  - eapply Forall_impl; [exact Hdelays|]. intros w (Hfst & _). exact Hfst.
  - exact Hload.
Qed.

Lemma page_shows_spinner_or_empty_state_witness :
  exists pg,
    PageTemplate.exec
      [PageTemplate.Settle 0 (Async.Fulfilled JS.VUndefined);
       PageTemplate.Render]
      (PageTemplate.onLoad JS.VNull PageTemplate.mounted) = Some pg /\
    PageTemplate.refresh_on_screen pg = true /\
    PageTemplate.error (PageTemplate.view pg) = None.
Proof.
  eexists. split; [reflexivity|].
  destruct (page_shows_spinner_or_empty_state JS.VNull
              [PageTemplate.Settle 0 (Async.Fulfilled JS.VUndefined);
               PageTemplate.Render] _ eq_refl)
    as (_ & Herror & _).
  split; [reflexivity|exact Herror].
Defined.

(** X7.  The page can always come to rest: from every state it reaches
    after [onLoad], letting the pending delays settle one after the other
    and then re-rendering leaves nothing pending, the spinner off and the
    Refresh button on screen, where it can be tapped.  A pending promise
    can only settle as fulfilled, with no value. *)
Theorem page_can_always_come_to_rest :
  forall options inputs pg,
    PageTemplate.exec inputs (PageTemplate.onLoad options PageTemplate.mounted)
      = Some pg ->
    (exists pg',
       PageTemplate.exec
         (PageTemplate.settle_all pg ++ [PageTemplate.Render]) pg = Some pg' /\
       PageTemplate.pending pg' = [] /\
       PageTemplate.spinner_shown (PageTemplate.view pg') = false /\
       PageTemplate.refresh_on_screen pg' = true /\
       is_Some (PageTemplate.step PageTemplate.TapRefresh pg')) /\
    (forall n o,
       is_Some (PageTemplate.step (PageTemplate.Settle n o) pg) ->
       (n < length (PageTemplate.pending pg))%nat /\
       o = Async.Fulfilled JS.VUndefined).
Proof.
  intros options inputs pg Hexec.
  pose proof (loaded_page_well_formed options inputs pg Hexec) as Hwf.
  split.
  - destruct (settle_all_reaches_rest (length (PageTemplate.pending pg)) pg
                Hwf eq_refl)
      as (pg1 & Hexec1 & Hwf1 & Hnone & Hoff & _).
    destruct Hwf1 as (_ & (Hitems & _) & _ & _).
    eexists. unfold PageTemplate.settle_all. rewrite exec_app, Hexec1.
    split; [reflexivity|]. cbn.
    assert (PageTemplate.refresh_shown (PageTemplate.view pg1) = true) as Hshown.
    { unfold PageTemplate.refresh_shown. rewrite Hoff, Hitems. reflexivity. }
    split; [exact Hnone|]. split; [exact Hoff|]. split; [exact Hshown|].
    unfold PageTemplate.refresh_on_screen. cbn. rewrite Hshown.
    eexists. reflexivity.
  - intros n o [pg' Hstep]. cbn [PageTemplate.step] in Hstep.
    destruct (PageTemplate.pending pg !! n) as [[p k]|] eqn:Hn; [|discriminate].
    destruct Hwf as (Hdelays & _).
    destruct (Forall_lookup_1 _ _ _ _ Hdelays Hn) as (Hp & _).
    cbn [fst] in Hp. subst p. split.
    + apply lookup_lt_Some in Hn. exact Hn.
    + destruct o as [v|reason]; [destruct v|]; cbn in Hstep;
        try discriminate. reflexivity.
Qed.

Lemma page_can_always_come_to_rest_witness :
  exists pg pg',
    PageTemplate.exec
      [PageTemplate.Render;
       PageTemplate.Settle 0 (Async.Fulfilled JS.VUndefined);
       PageTemplate.Render;
       PageTemplate.TapRefresh;
       PageTemplate.TapRefresh]
      (PageTemplate.onLoad JS.VNull PageTemplate.mounted) = Some pg /\
    PageTemplate.exec
      (PageTemplate.settle_all pg ++ [PageTemplate.Render]) pg = Some pg' /\
    PageTemplate.pending pg' = [].
Proof.
  destruct (page_can_always_come_to_rest JS.VNull
              [PageTemplate.Render;
               PageTemplate.Settle 0 (Async.Fulfilled JS.VUndefined);
               PageTemplate.Render;
               PageTemplate.TapRefresh;
               PageTemplate.TapRefresh] _ eq_refl)
    as ((pg' & Hexec & Hnone & _) & _).
  eexists. exists pg'. split; [reflexivity|]. split; [exact Hexec|exact Hnone].
Defined.

(** X8.  [loadData] itself does not guard against being called while a
    load is in flight; only the hidden button does.  Two calls of
    [onRefresh] in a row leave two delays pending, and when the first of
    them settles the spinner goes off although the second is still
    pending. *)
Theorem loadData_has_no_reentrancy_guard :
  forall pg : PageTemplate.page,
    PageTemplate.at_rest pg ->
    let twice := PageTemplate.onRefresh (PageTemplate.onRefresh pg) in
    map fst (PageTemplate.pending twice) = [Async.Delay 1000; Async.Delay 1000] /\
    exists pg',
      PageTemplate.step (PageTemplate.Settle 0 (Async.Fulfilled JS.VUndefined))
        twice = Some pg' /\
      PageTemplate.spinner_shown (PageTemplate.view pg') = false /\
      map fst (PageTemplate.pending pg') = [Async.Delay 1000].
Proof.
  intros pg (Hload & Hitems & Hpend) twice. subst twice.
  unfold PageTemplate.onRefresh, PageTemplate.spawn. cbn.
  rewrite Hpend. cbn. split; [reflexivity|].
  eexists. split; [reflexivity|]. split; reflexivity.
Qed.

Lemma loadData_has_no_reentrancy_guard_witness :
  map fst (PageTemplate.pending
             (PageTemplate.onRefresh (PageTemplate.onRefresh PageTemplate.mounted)))
  = [Async.Delay 1000; Async.Delay 1000].
Proof.
  apply (loadData_has_no_reentrancy_guard PageTemplate.mounted).
  repeat split.
Defined.

(** ** The form page *)

(** X9.  [handleSubmit] reports success and schedules the way back exactly
    when the validation is fulfilled with a truthy value: only then is the
    "Success" toast shown, [navigateBack] scheduled and [submitting] ever
    set to [true].  A falsy result or a rejection leaves the user on the
    form without any toast. *)
Theorem handleSubmit_succeeds_only_when_valid :
  forall (oracle : Async.promise -> Async.outcome) (s : FormPage.state),
    let r := Async.run oracle FormPage.handleSubmit s in
    let valid := exists v, oracle Async.FormValidate = Async.Fulfilled v /\
                           JS.truthy v = true in
    (Async.Called (Async.ShowToast (Some "Success") "success") ∈ Async.trace r
       <-> valid) /\
    (Async.Called (Async.NavigateBackAfter 1500) ∈ Async.trace r <-> valid) /\
    (Async.Wrote (FormPage.SetSubmitting true) ∈ Async.trace r <-> valid) /\
    (~ valid -> Async.toasts (Async.trace r) = []).
Proof.
  intros oracle s r valid. subst r valid. rewrite handleSubmit_run. cbn zeta.
  destruct (oracle Async.FormValidate) as [v|reason] eqn:Hsettled;
    [destruct (JS.truthy v) eqn:Hv|]; cbn [Async.trace].
  - assert (exists v0, Async.Fulfilled v = Async.Fulfilled v0 /\
                       JS.truthy v0 = true) as Hyes by eauto.
    split; [|split; [|split]].
    + split; [intros _; exact Hyes|intros _; repeat constructor].
    + split; [intros _; exact Hyes|intros _; repeat constructor].
    + split; [intros _; exact Hyes|intros _; repeat constructor].
    + intros Hnot. exfalso. exact (Hnot Hyes).
  - assert (~ exists v0, Async.Fulfilled v = Async.Fulfilled v0 /\
                         JS.truthy v0 = true) as Hno.
    { intros (v0 & Heq & Ht). injection Heq as <-. congruence. }
    split; [|split; [|split]].
    + split; [|intros H; exfalso; exact (Hno H)].
      rewrite !elem_of_cons, elem_of_nil. intuition discriminate.
    + split; [|intros H; exfalso; exact (Hno H)].
      rewrite !elem_of_cons, elem_of_nil. intuition discriminate.
    + split; [|intros H; exfalso; exact (Hno H)].
      rewrite !elem_of_cons, elem_of_nil. intuition discriminate.
    + intros _. reflexivity.
  - assert (~ exists v0, Async.Rejected reason = Async.Fulfilled v0 /\
                         JS.truthy v0 = true) as Hno.
    { intros (v0 & Heq & _). discriminate. }
    split; [|split; [|split]].
    + split; [|intros H; exfalso; exact (Hno H)].
      rewrite !elem_of_cons, elem_of_nil. intuition discriminate.
    + split; [|intros H; exfalso; exact (Hno H)].
      rewrite !elem_of_cons, elem_of_nil. intuition discriminate.
    + split; [|intros H; exfalso; exact (Hno H)].
      rewrite !elem_of_cons, elem_of_nil. intuition discriminate.
    + intros _. reflexivity.
Qed.

Lemma handleSubmit_succeeds_only_when_valid_witness :
  Async.toasts
    (Async.trace
       (Async.run (fun _ => Async.Fulfilled (JS.VBool false))
          FormPage.handleSubmit FormPage.initial)) = [].
Proof.
  apply (handleSubmit_succeeds_only_when_valid
           (fun _ => Async.Fulfilled (JS.VBool false)) FormPage.initial).
  intros (v & Heq & Ht). injection Heq as <-. discriminate.
Defined.

(** ** [try], [catch] and [finally] around any body *)

Section TryBlocks.
Import JS Async.
Context {W S : Type} `{Store W S}.

Lemma run_after {A} (e : event W) (r : result W S A) :
  after e r = Result (how r) (refs r) (e :: trace r).
Proof. reflexivity. Qed.

(** A [catch] only changes runs that throw: it continues them with the
    handler. *)
Lemma run_try_catch {A} (oracle : promise -> outcome)
    (body : prog W S A) (handler : value -> prog W S A) : forall s : S,
  run oracle (try_catch body handler) s =
  match how (run oracle body s) with
  | Thrown e =>
      let r := run oracle body s in
      let r' := run oracle (handler e) (refs r) in
      Result (how r') (refs r') (trace r ++ trace r')%list
  | _ => run oracle body s
  end.
Proof.
  induction body as [a| |e|w k IH|k IH|c k IH|p k IH]; intros s;
    cbn [try_catch run].
  - reflexivity.
  - reflexivity.
  - cbn [how refs trace app].
    destruct (run oracle (handler e) s); reflexivity.
  - rewrite IH. cbn [after how].
    destruct (how (run oracle k (apply_write w s))); reflexivity.
  - apply IH.
  - rewrite IH. cbn [after how].
    destruct (how (run oracle k s)); reflexivity.
  - rewrite IH. cbn [after how].
    destruct (how (run oracle (k (oracle p)) s)); reflexivity.
Qed.

(** A [finally] that is one assignment: the assignment is made last, after
    every completion of the body, and the completion is kept. *)
Lemma run_try_finally_write {A} (oracle : promise -> outcome)
    (body : prog W S A) (w : W) : forall s : S,
  run oracle (try_finally body (write w)) s =
  let r := run oracle body s in
  Result (how r) (apply_write w (refs r)) (trace r ++ [Wrote w])%list.
Proof.
  induction body as [a| |e|w' k IH|k IH|c k IH|p k IH]; intros s;
    cbn [try_finally run]; try reflexivity.
  - rewrite IH. reflexivity.
  - apply IH.
  - rewrite IH. reflexivity.
  - rewrite IH. reflexivity.
Qed.

End TryBlocks.

Section Skeleton.
Import JS Async PageTemplate PageSkeleton.

Lemma toasts_app {W} (t1 t2 : list (event W)) :
  toasts (t1 ++ t2) = (toasts t1 ++ toasts t2)%list.
Proof. apply omap_app. Qed.

Lemma loadData_with_run (oracle : promise -> outcome)
    (body : prog assign state unit) (s : state) :
  run oracle (loadData_with body) s =
  let r := run oracle body (State true (items s) None) in
  match how r with
  | Thrown e =>
      Result (Normal tt)
        (State false (items (refs r)) (Some (message_of e)))
        ([Wrote (SetLoading true); Wrote (SetError None)] ++ trace r ++
         [Wrote (SetError (Some (message_of e)));
          Called (ShowToast (Some (message_of e)) "none");
          Wrote (SetLoading false)])%list
  | c =>
      Result c (State false (items (refs r)) (error (refs r)))
        ([Wrote (SetLoading true); Wrote (SetError None)] ++ trace r ++
         [Wrote (SetLoading false)])%list
  end.
Proof.
  change (run oracle (loadData_with body) s)
    with (after (Wrote (SetLoading true))
            (after (Wrote (SetError None))
               (run oracle
                  (try_finally (try_catch body on_error)
                     (write (SetLoading false)))
                  (State true (items s) None)))).
  rewrite run_try_finally_write, run_try_catch. cbn zeta.
  destruct (how (run oracle body (State true (items s) None))) eqn:Hhow;
    cbn; rewrite ?Hhow, <- ?app_assoc; reflexivity.
Qed.

End Skeleton.

(** X10.  Whatever call replaces the placeholder in the [try] block of the
    page template's [loadData]: the run never ends in an uncaught error,
    [loading] is [false] at the end and clearing it is the last thing
    done; and if the call throws, the message of the error is stored in
    [error] and shown in a toast.  The shipped [loadData] is the instance
    with the one-second delay. *)
Theorem loadData_skeleton_handles_any_call :
  PageTemplate.loadData = PageSkeleton.loadData_with PageSkeleton.placeholder /\
  forall (body : Async.prog PageTemplate.assign PageTemplate.state unit)
         (oracle : Async.promise -> Async.outcome) (s : PageTemplate.state),
    let r := Async.run oracle (PageSkeleton.loadData_with body) s in
    let inner := Async.run oracle body
                   (PageTemplate.State true (PageTemplate.items s) None) in
    (forall e, Async.how r <> Async.Thrown e) /\
    PageTemplate.loading (Async.refs r) = false /\
    last (Async.trace r) = Some (Async.Wrote (PageTemplate.SetLoading false)) /\
    (forall e,
       Async.how inner = Async.Thrown e ->
       PageTemplate.error (Async.refs r) = Some (PageTemplate.message_of e) /\
       (Some (PageTemplate.message_of e), "none")
         ∈ Async.toasts (Async.trace r)) /\
    (forall a,
       Async.how inner = Async.Normal a ->
       Async.toasts (Async.trace r) = Async.toasts (Async.trace inner) /\
       PageTemplate.error (Async.refs r) = PageTemplate.error (Async.refs inner)).
Proof.
  split; [reflexivity|].
  intros body oracle s r inner. subst r inner. rewrite loadData_with_run.
  cbn zeta.
  set (inner := Async.run oracle body
                  (PageTemplate.State true (PageTemplate.items s) None)).
  destruct (Async.how inner) as [a| |e] eqn:Hhow; cbn [Async.how Async.refs
    Async.trace PageTemplate.loading PageTemplate.error].
  - split; [discriminate|]. split; [reflexivity|]. split; [|split].
    + rewrite app_assoc. apply last_snoc.
    + discriminate.
    + intros _ _. split; [|reflexivity].
      rewrite !toasts_app. cbn [app]. apply app_nil_r.
  - split; [discriminate|]. split; [reflexivity|]. split; [|split].
    + rewrite app_assoc. apply last_snoc.
    + discriminate.
    + discriminate.
  - split; [discriminate|]. split; [reflexivity|]. split; [|split].
    + rewrite app_assoc.
      change [Async.Wrote (PageTemplate.SetError (Some (PageTemplate.message_of e)));
              Async.Called (Async.ShowToast (Some (PageTemplate.message_of e)) "none");
              Async.Wrote (PageTemplate.SetLoading false)]
        with ([Async.Wrote (PageTemplate.SetError (Some (PageTemplate.message_of e)));
               Async.Called (Async.ShowToast (Some (PageTemplate.message_of e)) "none")]
              ++ [Async.Wrote (PageTemplate.SetLoading false)])%list.
      rewrite app_assoc. apply last_snoc.
    + intros e' He'. injection He' as <-. split; [reflexivity|].
      rewrite !toasts_app. apply elem_of_app. right.
      apply elem_of_app. right. apply list_elem_of_here.
    + discriminate.
Qed.

Lemma loadData_skeleton_handles_any_call_witness :
  let body : Async.prog PageTemplate.assign PageTemplate.state unit :=
    Async.Throw (JS.VError "404 Not Found") in
  PageTemplate.error
    (Async.refs
       (Async.run (fun _ => Async.Fulfilled JS.VUndefined)
          (PageSkeleton.loadData_with body) PageTemplate.initial))
  = Some "404 Not Found".
Proof.
  intros body.
  destruct loadData_skeleton_handles_any_call as (_ & Hany).
  destruct (Hany body (fun _ => Async.Fulfilled JS.VUndefined)
              PageTemplate.initial) as (_ & _ & _ & Hthrown & _).
  destruct (Hthrown (JS.VError "404 Not Found") eq_refl) as (Herror & _).
  exact Herror.
Defined.

(** ** The theme store in use *)

Section ThemeStoreMore.
Import JS Prototype ThemeStore ThemeUsage.

Lemma initial_themes_lookup (themeName : string) :
  themes initial !! themeName =
  if decide (themeName = "default") then Some default_theme
  else if decide (themeName = "dark") then Some dark_theme
  else None.
Proof.
  unfold initial. cbn [themes].
  destruct (decide (themeName = "default")) as [->|Hd]; [reflexivity|].
  rewrite lookup_insert_ne by congruence.
  destruct (decide (themeName = "dark")) as [->|Hk]; [reflexivity|].
  rewrite lookup_singleton_ne by congruence. reflexivity.
Qed.

Lemma perform_all_cons (a : action) (actions : list action) (w : world) :
  perform_all (a :: actions) w = perform_all actions (perform a w).
Proof. reflexivity. Qed.

Lemma console_grows_by_rejections (actions : list action) : forall w : world,
  themes (store w) = themes initial ->
  length (console (perform_all actions w)) =
  (length (console w) + rejected_names actions)%nat.
Proof.
  induction actions as [|a actions IH]; intros w Hthemes.
  - cbn. lia.
  - rewrite perform_all_cons, IH
      by (rewrite perform_keeps_themes; exact Hthemes).
    unfold rejected_names. cbn [List.filter].
    destruct a as [themeName|]; cbn [perform].
    + unfold setTheme. rewrite Hthemes.
      destruct (negb (found (get (themes initial) themeName))).
      * cbn. rewrite length_app. cbn. lia.
      * cbn. lia.
    + destruct (loadSavedTheme_cases w) as [->|(_ & _ & ->)]; cbn; lia.
Qed.

Lemma checkDarkMode_dark (t : string) :
  checkDarkMode (Some t) = String.eqb t "dark".
Proof. destruct t; reflexivity. Qed.

End ThemeStoreMore.

(** X11.  A theme chosen with [setTheme] comes back after a restart: in a
    store with the same themes whose storage is the one [setTheme] left,
    [loadSavedTheme] selects that theme again.  The exception is a theme
    whose key is the empty string: [setTheme] stores it, but
    [loadSavedTheme] takes the empty string for "nothing saved" and changes
    nothing. *)
Theorem saved_theme_is_restored :
  (forall themeName t w restarted,
     ThemeStore.themes (ThemeStore.store w) !! themeName = Some t ->
     themeName <> EmptyString ->
     ThemeStore.themes (ThemeStore.store restarted) =
       ThemeStore.themes (ThemeStore.store w) ->
     ThemeStore.storage restarted =
       ThemeStore.storage (ThemeStore.setTheme themeName w) ->
     ThemeStore.currentTheme
       (ThemeStore.store (ThemeStore.loadSavedTheme restarted)) = themeName /\
     ThemeStore.theme
       (ThemeStore.store (ThemeStore.loadSavedTheme restarted))
       = Prototype.Own t) /\
  (forall t w restarted,
     ThemeStore.themes (ThemeStore.store w) !! EmptyString = Some t ->
     ThemeStore.storage restarted =
       ThemeStore.storage (ThemeStore.setTheme EmptyString w) ->
     ThemeStore.storage restarted !! "theme" = Some EmptyString /\
     ThemeStore.loadSavedTheme restarted = restarted).
Proof.
  split.
  - intros themeName t w restarted Hknown Hne Hthemes Hstorage.
    rewrite (setTheme_known themeName t w Hknown) in Hstorage.
    cbn [ThemeStore.storage] in Hstorage.
    assert (ThemeStore.getStorageSync "theme" restarted = themeName) as Hsaved.
    { unfold ThemeStore.getStorageSync.
      rewrite Hstorage, lookup_insert_eq. reflexivity. }
    unfold ThemeStore.loadSavedTheme. rewrite Hsaved.
    apply truthy_string_true in Hne. rewrite Hne.
    rewrite <- Hthemes in Hknown.
    rewrite (get_own _ _ _ Hknown).
    cbn. unfold ThemeStore.theme. cbn. rewrite (get_own _ _ _ Hknown). auto.
  - intros t w restarted Hknown Hstorage.
    rewrite (setTheme_known EmptyString t w Hknown) in Hstorage.
    cbn [ThemeStore.storage] in Hstorage.
    assert (ThemeStore.getStorageSync "theme" restarted = EmptyString) as Hsaved.
    { unfold ThemeStore.getStorageSync.
      rewrite Hstorage, lookup_insert_eq. reflexivity. }
    unfold ThemeStore.loadSavedTheme. rewrite Hsaved, Hstorage, lookup_insert_eq.
    split; reflexivity.
Qed.

Lemma saved_theme_is_restored_witness :
  ThemeStore.currentTheme
    (ThemeStore.store
       (ThemeStore.loadSavedTheme
          (ThemeStore.boot
             (ThemeStore.storage
                (ThemeStore.setTheme "dark" (ThemeStore.boot ∅))))))
  = "dark" /\
  (let unnamed :=
     ThemeStore.World
       (ThemeStore.State "default"
          {[ "default" := ThemeStore.default_theme;
             EmptyString := ThemeStore.dark_theme ]}) ∅ [] in
   let restarted :=
     ThemeStore.World (ThemeStore.store unnamed)
       (ThemeStore.storage (ThemeStore.setTheme EmptyString unnamed)) [] in
   ThemeStore.loadSavedTheme restarted = restarted).
Proof.
  destruct saved_theme_is_restored as (Hback & Hempty).
  split.
  - apply (Hback "dark" ThemeStore.dark_theme (ThemeStore.boot ∅)
             (ThemeStore.boot
                (ThemeStore.storage
                   (ThemeStore.setTheme "dark" (ThemeStore.boot ∅)))));
      [reflexivity|discriminate|reflexivity|reflexivity].
  - intros unnamed restarted.
    apply (Hempty ThemeStore.dark_theme unnamed restarted); reflexivity.
Defined.

(** X12.  The last [setTheme] wins: after two calls that both pass the
    guard (in particular with two keys of [themes]) the store, the storage
    and the console are as after the second call alone; and a call under
    whose name [themes] has no property at all, put in front of another
    call, changes neither store nor storage of the result. *)
Theorem last_setTheme_wins :
  (forall a b w,
     Prototype.found (Prototype.get (ThemeStore.themes (ThemeStore.store w)) a)
       = true ->
     Prototype.found (Prototype.get (ThemeStore.themes (ThemeStore.store w)) b)
       = true ->
     ThemeStore.setTheme b (ThemeStore.setTheme a w) = ThemeStore.setTheme b w) /\
  (forall a b w,
     Prototype.get (ThemeStore.themes (ThemeStore.store w)) a
       = Prototype.Missing ->
     ThemeStore.store (ThemeStore.setTheme b (ThemeStore.setTheme a w)) =
       ThemeStore.store (ThemeStore.setTheme b w) /\
     ThemeStore.storage (ThemeStore.setTheme b (ThemeStore.setTheme a w)) =
       ThemeStore.storage (ThemeStore.setTheme b w)).
Proof.
  split.
  - intros a b w Ha Hb.
    rewrite (setTheme_found a w Ha).
    rewrite (setTheme_found b w Hb).
    unfold ThemeStore.setTheme.
    cbn [ThemeStore.store ThemeStore.themes ThemeStore.storage ThemeStore.console].
    rewrite Hb, insert_insert_eq. reflexivity.
  - intros a b w Ha. rewrite (setTheme_missing a w Ha).
    unfold ThemeStore.setTheme. cbn.
    destruct (Prototype.found
                (Prototype.get (ThemeStore.themes (ThemeStore.store w)) b));
      auto.
Qed.

Lemma last_setTheme_wins_witness :
  ThemeStore.setTheme "default"
    (ThemeStore.setTheme "dark" (ThemeStore.boot ∅)) =
  ThemeStore.setTheme "default" (ThemeStore.boot ∅) /\
  ThemeStore.storage
    (ThemeStore.setTheme "dark"
       (ThemeStore.setTheme "web" (ThemeStore.boot ∅))) =
  ThemeStore.storage (ThemeStore.setTheme "dark" (ThemeStore.boot ∅)).
Proof.
  destruct last_setTheme_wins as (Hfound & Hmissing).
  split.
  - apply (Hfound "dark" "default"); reflexivity.
  - apply (Hmissing "web" "dark" (ThemeStore.boot ∅)). reflexivity.
Defined.

(** X13.  The console tells the rejected selections and nothing else:
    after any sequence of [setTheme] and [loadSavedTheme] calls on a fresh
    store, it holds one line for each [setTheme] under whose name [themes]
    has no property, neither a theme nor an inherited member;
    [loadSavedTheme] never logs, whatever the saved name. *)
Theorem console_counts_rejected_names :
  forall (persisted : gmap string string) (actions : list ThemeStore.action),
    length (ThemeStore.console
              (ThemeStore.perform_all actions (ThemeStore.boot persisted))) =
    ThemeUsage.rejected_names actions.
Proof.
  intros persisted actions.
  rewrite console_grows_by_rejections; reflexivity.
Qed.

(** X14.  The platform snippets name themes the store does not have.  On a
    WeChat or H5 build, [themeStore.setTheme(defaultTheme)] changes neither
    store nor storage and logs one error; on the other builds it selects and
    stores 'default'.  Of the names [getPlatformTheme] returns, only the
    fallback 'default' is a theme of the store. *)
Theorem platform_theme_names_are_unknown :
  (forall p w,
     ThemeStore.themes (ThemeStore.store w) =
       ThemeStore.themes ThemeStore.initial ->
     let w' := ThemeUsage.applyDefaultTheme p w in
     match p with
     | ThemeUsage.MP_WEIXIN | ThemeUsage.H5 =>
         ThemeStore.store w' = ThemeStore.store w /\
         ThemeStore.storage w' = ThemeStore.storage w /\
         length (ThemeStore.console w') = S (length (ThemeStore.console w))
     | ThemeUsage.MP_ALIPAY | ThemeUsage.OtherPlatform =>
         ThemeStore.currentTheme (ThemeStore.store w') = "default" /\
         ThemeStore.storage w' !! "theme" = Some "default" /\
         ThemeStore.console w' = ThemeStore.console w
     end) /\
  (forall p,
     is_Some (ThemeStore.themes ThemeStore.initial
                !! ThemeUsage.getPlatformTheme p) <->
     p = ThemeUsage.OtherPlatform).
Proof.
  split.
  - intros p w Hthemes w'. subst w'.
    unfold ThemeUsage.applyDefaultTheme, ThemeStore.setTheme.
    rewrite Hthemes.
    destruct p; cbn [ThemeUsage.defaultTheme].
    + change (Prototype.get (ThemeStore.themes ThemeStore.initial) "wechat")
        with (@Prototype.Missing ThemeStore.Theme).
      cbn. split; [reflexivity|]. split; [reflexivity|].
      rewrite length_app. cbn. lia.
    + change (Prototype.get (ThemeStore.themes ThemeStore.initial) "web")
        with (@Prototype.Missing ThemeStore.Theme).
      cbn. split; [reflexivity|]. split; [reflexivity|].
      rewrite length_app. cbn. lia.
    + change (Prototype.get (ThemeStore.themes ThemeStore.initial) "default")
        with (Prototype.Own ThemeStore.default_theme).
      cbn. split; [reflexivity|]. split; [apply lookup_insert_eq|reflexivity].
    + change (Prototype.get (ThemeStore.themes ThemeStore.initial) "default")
        with (Prototype.Own ThemeStore.default_theme).
      cbn. split; [reflexivity|]. split; [apply lookup_insert_eq|reflexivity].
  - intros p. rewrite initial_themes_lookup.
    destruct p; cbn [ThemeUsage.getPlatformTheme];
      repeat case_decide; try congruence; split; intros Hp;
      try discriminate; try reflexivity; try (eexists; reflexivity);
      destruct Hp as [? Hp]; discriminate.
Qed.

Lemma platform_theme_names_are_unknown_witness :
  ThemeStore.store
    (ThemeUsage.applyDefaultTheme ThemeUsage.MP_WEIXIN
       (ThemeStore.setTheme "dark" (ThemeStore.boot ∅))) =
  ThemeStore.store (ThemeStore.setTheme "dark" (ThemeStore.boot ∅)).
Proof.
  destruct platform_theme_names_are_unknown as (Happly & _).
  apply (Happly ThemeUsage.MP_WEIXIN
           (ThemeStore.setTheme "dark" (ThemeStore.boot ∅))).
  reflexivity.
Defined.

(** X15.  The [onThemeChange] handler always selects a theme the store has:
    'dark' exactly when [checkDarkMode] calls the reported theme dark,
    'default' otherwise.  The selection is stored, and the only console line
    added is the handler's own log, never an error. *)
Theorem onThemeChange_selects_dark_or_default :
  forall (res_theme : string) (w : ThemeStore.world),
    ThemeStore.themes (ThemeStore.store w) =
      ThemeStore.themes ThemeStore.initial ->
    let w' := ThemeUsage.onThemeChange res_theme w in
    ThemeStore.currentTheme (ThemeStore.store w') =
      (if ThemeUsage.checkDarkMode (Some res_theme) then "dark" else "default") /\
    ThemeStore.theme (ThemeStore.store w') =
      Prototype.Own (if ThemeUsage.checkDarkMode (Some res_theme)
                     then ThemeStore.dark_theme else ThemeStore.default_theme) /\
    ThemeStore.storage w' !! "theme" =
      Some (ThemeStore.currentTheme (ThemeStore.store w')) /\
    ThemeStore.console w' =
      (ThemeStore.console w ++ ["Theme changed: " +:+ res_theme])%list.
Proof.
  intros res_theme w Hthemes w'. subst w'.
  rewrite checkDarkMode_dark.
  unfold ThemeUsage.onThemeChange. cbn zeta.
  set (logged := ThemeStore.World (ThemeStore.store w) (ThemeStore.storage w)
                   (ThemeStore.console w ++ ["Theme changed: " +:+ res_theme])).
  assert (ThemeStore.themes (ThemeStore.store logged) =
          ThemeStore.themes ThemeStore.initial) as Hlogged by exact Hthemes.
  destruct (String.eqb res_theme "dark").
  - rewrite (setTheme_known "dark" ThemeStore.dark_theme logged)
      by (rewrite Hlogged; reflexivity).
    unfold ThemeStore.theme.
    cbn [ThemeStore.store ThemeStore.storage ThemeStore.console
         ThemeStore.currentTheme ThemeStore.themes logged].
    rewrite Hthemes, lookup_insert_eq. repeat split.
  - rewrite (setTheme_known "default" ThemeStore.default_theme logged)
      by (rewrite Hlogged; reflexivity).
    unfold ThemeStore.theme.
    cbn [ThemeStore.store ThemeStore.storage ThemeStore.console
         ThemeStore.currentTheme ThemeStore.themes logged].
    rewrite Hthemes, lookup_insert_eq. repeat split.
Qed.

Lemma onThemeChange_selects_dark_or_default_witness :
  ThemeStore.currentTheme
    (ThemeStore.store (ThemeUsage.onThemeChange "light" (ThemeStore.boot ∅)))
  = "default".
Proof.
  apply (onThemeChange_selects_dark_or_default "light" (ThemeStore.boot ∅)).
  reflexivity.
Defined.

(** X16.  The computed [themeStyles] never throws on a store that is only
    changed through its actions: after any [setTheme] and [loadSavedTheme]
    calls it yields the three CSS variables, holding the colours of the
    default theme, or those of the dark theme, or, when a name inherited
    from [Object.prototype] has been selected, [undefined] three times.  It
    throws only on a store under whose [currentTheme] [themes] has no
    property at all. *)
Theorem themeStyles_defined_after_actions :
  (forall (persisted : gmap string string) (actions : list ThemeStore.action),
     let s := ThemeStore.store
                (ThemeStore.perform_all actions (ThemeStore.boot persisted)) in
     (exists t,
        (t = ThemeStore.default_theme \/ t = ThemeStore.dark_theme) /\
        ThemeStore.theme s = Prototype.Own t /\
        ThemeUsage.themeStyles s =
        Some {[ "--primary-color" := JS.VStr (ThemeStore.primary t);
                "--text-primary" := JS.VStr (ThemeStore.textPrimary t);
                "--bg-page" := JS.VStr (ThemeStore.bgPage t) ]}) \/
     (ThemeStore.theme s = Prototype.Inherited /\
      ThemeStore.currentTheme s ∈ Prototype.object_prototype /\
      ThemeUsage.themeStyles s =
      Some {[ "--primary-color" := JS.VUndefined;
              "--text-primary" := JS.VUndefined;
              "--bg-page" := JS.VUndefined ]})) /\
  (forall s,
     ThemeUsage.themeStyles s = None <->
     ThemeStore.theme s = Prototype.Missing).
Proof.
  split.
  - intros persisted actions s. subst s.
    destruct (perform_all_keeps actions (ThemeStore.boot persisted))
      as (Hsel & Hthemes); [reflexivity|].
    unfold ThemeStore.selected_found in Hsel.
    unfold ThemeUsage.themeStyles.
    destruct (ThemeStore.theme _) as [t| |] eqn:Htheme; [| |discriminate].
    + left. exists t. split; [|split; reflexivity].
      unfold ThemeStore.theme, Prototype.get in Htheme.
      rewrite Hthemes in Htheme. cbn [ThemeStore.boot ThemeStore.store] in Htheme.
      rewrite initial_themes_lookup in Htheme.
      repeat case_decide; try discriminate; injection Htheme as <-; auto.
    + right. split; [reflexivity|]. split; [|reflexivity].
      unfold ThemeStore.theme, Prototype.get in Htheme.
      destruct (ThemeStore.themes _ !! _); [discriminate|].
      case_bool_decide; [assumption|discriminate].
  - intros s. unfold ThemeUsage.themeStyles.
    destruct (ThemeStore.theme s); split; intros H; try discriminate;
      reflexivity.
Qed.

Lemma themeStyles_defined_after_actions_witness :
  ThemeUsage.themeStyles
    (ThemeStore.store
       (ThemeStore.perform_all
          [ThemeStore.SetTheme "wechat"; ThemeStore.SetTheme "dark"]
          (ThemeStore.boot ∅)))
  = Some {[ "--primary-color" := JS.VStr "#177ddc";
            "--text-primary" := JS.VStr "#ffffff";
            "--bg-page" := JS.VStr "#141414" ]} /\
  ThemeUsage.themeStyles
    (ThemeStore.State "wechat" (ThemeStore.themes ThemeStore.initial)) = None.
Proof.
  destruct themeStyles_defined_after_actions as (_ & Hthrows).
  split; [reflexivity|]. apply Hthrows. reflexivity.
Defined.

(** ** Requests *)

(** X17.  With a token set, [request] sends the caller's options with
    exactly one change: the header "Authorization" is "Bearer " followed by
    the token, replacing any the caller gave; every other header, the URL
    and the method are the caller's.  Without a token (the initial state,
    or after [setToken('')]) the options are sent as they came.  Passing
    options through [request] twice is the same as once, and different
    tokens give different "Authorization" headers. *)
Theorem request_adds_only_authorization :
  (forall token options,
     token <> EmptyString ->
     let sent := Request.request token options in
     Request.url sent = Request.url options /\
     Request.method sent = Request.method options /\
     exists h,
       Request.header sent = Some h /\
       h !! "Authorization" = Some ("Bearer " +:+ token) /\
       forall k, k <> "Authorization" ->
                 h !! k = default ∅ (Request.header options) !! k) /\
  (forall token options,
     Request.request (Request.setToken EmptyString token) options = options) /\
  (forall token options,
     Request.request token (Request.request token options) =
     Request.request token options) /\
  (forall t1 t2 options,
     t1 <> EmptyString -> t2 <> EmptyString ->
     Request.header (Request.request t1 options) =
     Request.header (Request.request t2 options) ->
     t1 = t2).
Proof.
  split; [|split; [|split]].
  - intros token options Hne sent. subst sent. unfold Request.request.
    apply truthy_string_true in Hne. rewrite Hne. cbn.
    repeat split. eexists. split; [reflexivity|]. split.
    + apply lookup_insert_eq.
    + intros k Hk. apply lookup_insert_ne. congruence.
  - intros token options. reflexivity.
  - intros token options. unfold Request.request.
    destruct (JS.truthy_string token) eqn:Ht; [|reflexivity].
    cbn. rewrite insert_insert_eq. reflexivity.
  - intros t1 t2 options H1 H2 Hsame. unfold Request.request in Hsame.
    apply truthy_string_true in H1. apply truthy_string_true in H2.
    rewrite H1, H2 in Hsame. cbn in Hsame. injection Hsame as Hsame.
    assert ((<["Authorization" := "Bearer " +:+ t1]>
               (default ∅ (Request.header options)) : gmap string string)
              !! "Authorization" =
            (<["Authorization" := "Bearer " +:+ t2]>
               (default ∅ (Request.header options)) : gmap string string)
              !! "Authorization") as Hlook by (rewrite Hsame; reflexivity).
    rewrite !lookup_insert_eq in Hlook. injection Hlook as Hlook.
    apply (inj (String.app _)) in Hlook. exact Hlook.
Qed.

Lemma request_adds_only_authorization_witness :
  exists h,
    Request.header
      (Request.request "s3cret"
         (Request.Options "https://api.example.com/items" (Some "GET")
            (Some {[ "Accept" := "application/json";
                     "Authorization" := "Basic abc" ]}))) = Some h /\
    h !! "Authorization" = Some "Bearer s3cret" /\
    h !! "Accept" = Some "application/json".
Proof.
  destruct request_adds_only_authorization as (Hsent & _).
  destruct (Hsent "s3cret"
              (Request.Options "https://api.example.com/items" (Some "GET")
                 (Some {[ "Accept" := "application/json";
                          "Authorization" := "Basic abc" ]})))
    as (_ & _ & h & Hh & Hauth & Hothers); [discriminate|].
  exists h. split; [exact Hh|]. split; [exact Hauth|].
  rewrite Hothers by discriminate. reflexivity.
Defined.

(** X18.  The data-fetching [loadData] on top of [api.getItems] does not
    look at the HTTP status: whenever [uni.request] delivers a response,
    with whatever status code, its [data] becomes [items], no error is set
    and no toast is shown.  Only a failed request counts as an error, and
    then the toast is the fixed text, not the reason of the failure.  In
    both cases [loading] ends [false]. *)
Theorem fetch_ignores_status_code :
  forall (r : Request.request_outcome) (s : DataFetching.state),
    let done := Async.run (Request.network r) DataFetching.loadData s in
    Async.how done = Async.Normal tt /\
    DataFetching.loading (Async.refs done) = false /\
    match r with
    | Request.Responded res =>
        DataFetching.items (Async.refs done) = Request.data res /\
        DataFetching.error (Async.refs done) = None /\
        Async.toasts (Async.trace done) = []
    | Request.Failed reason =>
        DataFetching.items (Async.refs done) = DataFetching.items s /\
        DataFetching.error (Async.refs done) = Some "Failed to load data" /\
        Async.toasts (Async.trace done) = [(Some "Failed to load data", "none")]
    end.
Proof.
  intros r s done. subst done. rewrite fetch_loadData_run.
  destruct r as [res|reason]; cbn; repeat split.
Qed.

(** ** Style blocks and theme files *)

(** X19.  Every SCSS variable used by any style block of the templates
    (the page template, the five page patterns, the theme selector, the
    custom card) is a token of the recommended [theme.scss], so with that
    file injected no block has an undefined variable.  Together the blocks
    use 14 of the 23 tokens. *)
Theorem all_template_styles_use_defined_tokens :
  Forall (fun sheet => Forall (fun v => v ∈ Scss.token_names)
                         (Scss.sheet_vars sheet))
    Styles.template_styles /\
  Forall (fun sheet =>
            Styles.undefined_vars (map Scss.token_name Scss.theme_scss) sheet = [])
    Styles.template_styles /\
  (list_to_set (concat (map Scss.sheet_vars Styles.template_styles))
     : gset string) =
  {[ "color-bg-page"; "color-bg-card";
     "color-text-primary"; "color-text-secondary";
     "spacing-xs"; "spacing-sm"; "spacing-md"; "spacing-lg"; "spacing-xl";
     "font-size-sm"; "font-size-base"; "font-size-lg"; "font-size-xl";
     "border-radius-md" ]}.
Proof.
  split; [|split].
  - apply (bool_decide_unpack _). vm_compute. exact I.
  - apply (bool_decide_unpack _). vm_compute. exact I.
  - apply (bool_decide_unpack _). vm_compute. exact I.
Qed.

(** X20.  The two per-build theme files of the theme guide define the same
    eight variable names, and none of them is a name the templates use:
    with either file linked as [theme.scss], every variable reference of
    every template style block is undefined. *)
Theorem build_theme_files_define_no_template_variable :
  map fst Styles.theme_user_scss = map fst Styles.theme_admin_scss /\
  length (map fst Styles.theme_user_scss) = 8%nat /\
  Forall (fun sheet =>
            Styles.undefined_vars (map fst Styles.theme_user_scss) sheet =
            Scss.sheet_vars sheet)
    Styles.template_styles /\
  Forall (fun name => name ∉ Scss.token_names)
    (map fst Styles.theme_user_scss).
Proof.
  split; [reflexivity|]. split; [reflexivity|]. split.
  - apply (bool_decide_unpack _). vm_compute. exact I.
  - apply (bool_decide_unpack _). vm_compute. exact I.
Qed.
